(** * Deep neural network estimators ([estimators/dnn.py])

    A shallow embedding of the model function [_dnn_model_fn], of its
    helpers [_get_feature_dict] and [_get_optimizer], and of the facades
    [DNNClassifier] and [DNNRegressor].

    The module is composition glue over a tensor-graph runtime: running it
    builds a symbolic graph.  The embedding keeps that reading.  A tensor is
    the tree of collaborator calls that produced it, the side effects of
    graph construction (variable scopes entered and left, summaries
    emitted) are written to an event log in program order, and every call
    into a collaborator that is not part of this file ([optimize_loss],
    [head_ops], the generic [Estimator]) is the record of its arguments. *)

From Stdlib Require Import Floats ZArith.
From stdpp Require Import base option list gmap strings pretty.

Open Scope Z_scope.

(** Python floats are binary64, as are Rocq's: a decimal literal such as
    [0.05] denotes the nearest binary64 value in both. *)
Set Warnings "-inexact-float".

(** ** Python values *)

(** An opaque Python object that this module only passes along (input
    functions, arrays, directories, monitors). *)
Inductive PyObj := Obj (name : string).

(** A [tf.train.Optimizer] instance. *)
Record Optimizer := {
  optimizer_class : string;
  optimizer_learning_rate : float
}.

(** The values the duck-typed [optimizer] hyperparameter ranges over.  The
    code inspects it twice, by truth value ([or]) and by [callable], so the
    embedding keeps it dynamic.  A callable is a function object or a class
    taking no argument; its call returns any value. *)
Inductive PyValue :=
| PyNone
| PyBool (b : bool)
| PyInt (n : Z)
| PyFloat (x : float)
| PyStr (s : string)
| PyOptimizer (o : Optimizer)
| PyCallable (f : unit → PyValue).

(** Python truth value testing: [None], [False], zero and the empty string
    are false; instances without [__bool__]/[__len__], functions and
    classes are true. *)
Definition truthy (v : PyValue) : bool :=
  match v with
  | PyNone => false
  | PyBool b => b
  | PyInt n => negb (Z.eqb n 0)
  | PyFloat x => negb (PrimFloat.eqb x 0)
  | PyStr s => negb (String.eqb s "")
  | PyOptimizer _ => true
  | PyCallable _ => true
  end.

(** [callable(v)]. *)
Definition callable (v : PyValue) : bool :=
  match v with
  | PyCallable _ => true
  | _ => false
  end.

(** [a or b]. *)
Definition py_or (a b : PyValue) : PyValue :=
  if truthy a then a else b.

(** [d.get(key, default)] for one key of a dict: the entry is [None] when
    the key is absent. *)
Definition dict_get {A} (entry : option A) (default : A) : A :=
  match entry with
  | Some v => v
  | None => default
  end.

(** ** Exceptions *)

Inductive Exception :=
| ValueError (msg : string).

Inductive Exc (A : Type) :=
| Return (a : A)
| Raise (e : Exception).
Arguments Return {A} a.
Arguments Raise {A} e.

Definition exc_bind {A B} (m : Exc A) (k : A → Exc B) : Exc B :=
  match m with
  | Return a => k a
  | Raise e => Raise e
  end.

Declare Scope exc_scope.
Delimit Scope exc_scope with exc.
Notation "x ← m ; k" := (exc_bind m (λ x, k))
  (at level 20, m at level 100, k at level 200, only parsing) : exc_scope.

(** ** The graph under construction *)

Module model_fn.
(** Modelled from the spec: [ModeKeys] is declared in [model_fn.py], which
    is not part of this module; the data model names its members, "one of
    {TRAIN, EVAL, PREDICT}". *)
Inductive ModeKeys := TRAIN | EVAL | PREDICT.

#[global] Instance ModeKeys_eq_dec : EqDecision ModeKeys.
Proof. solve_decision. Defined.
End model_fn.
Export model_fn(ModeKeys).

Module prediction_key.
(** Modelled from the spec: [PredictionKey] is declared in
    [prediction_key.py], which is not part of this module; the head "owns
    prediction-key naming ([CLASSES], [PROBABILITIES], [SCORES])". *)
Inductive PredictionKey := CLASSES | PROBABILITIES | SCORES.

#[global] Instance PredictionKey_eq_dec : EqDecision PredictionKey.
Proof. solve_decision. Defined.
End prediction_key.
Export prediction_key(PredictionKey).

(** A tensor handed in by the input pipeline. *)
Inductive FeatureTensor := Placeholder (name : string).

Record FeatureColumn := { column_name : string }.

Record ActivationFn := { activation_name : string }.

(** The partitioner returned by
    [partitioned_variables.min_max_variable_partitioner]; an argument the
    call leaves out (and so leaves to the library default) is [None]. *)
Record Partitioner := {
  max_partitions : Z;
  min_slice_size : option Z
}.

Module partitioned_variables.
Definition min_max_variable_partitioner
    (max_partitions : Z) (min_slice_size : option Z) : Partitioner :=
  {| max_partitions := max_partitions; min_slice_size := min_slice_size |}.
End partitioned_variables.

(** The scope object bound by [with variable_scope.variable_scope(...) as
    scope].  The model function is called by the [Estimator] at the root of
    a fresh graph, so [scope.name] is the name the scope was opened with. *)
Record VariableScope := {
  scope_name : string;
  scope_partitioner : Partitioner
}.

(** Tensors are the calls that build them. *)
Inductive Tensor :=
| InputFromFeatureColumns
    (columns_to_tensors : gmap string FeatureTensor)
    (feature_columns : list FeatureColumn)
    (weight_collections : list string)
    (scope : VariableScope)
| FullyConnected
    (inputs : Tensor)
    (num_outputs : Z)
    (activation_fn : option ActivationFn)
    (variables_collections : list string)
    (scope : VariableScope)
| Dropout (inputs : Tensor) (keep_prob : float)
| ZeroFraction (value : Tensor).

Module layers.
Definition input_from_feature_columns := InputFromFeatureColumns.
Definition fully_connected := FullyConnected.
Definition dropout := Dropout.

(** Modelled from the spec: the layers library, which names the variables
    [fully_connected] creates, is not part of this module; a layer's
    "parameters are retrievable at [dnn/hiddenlayer_<i>/weights] and
    [.../biases]", that is, the weights under the name [weights] in the
    layer's scope. *)
Definition weights_name (scope : string) : string := scope +:+ "/weights".

(** Modelled from the spec: as for [weights_name], the biases under the
    name [biases] in the layer's scope. *)
Definition biases_name (scope : string) : string := scope +:+ "/biases".
End layers.

Module nn.
Definition zero_fraction := ZeroFraction.
End nn.

(** A value listed in the [values] argument of a variable scope. *)
Inductive ScopeValue :=
| OfFeature (t : FeatureTensor)
| OfTensor (t : Tensor).

(** Side effects of graph construction, in program order. *)
Inductive Event :=
| EnterVariableScope (scope : VariableScope) (values : list ScopeValue)
| ExitVariableScope (scope : VariableScope)
| SummaryScalar (tag : string) (value : Tensor)
| SummaryHistogram (tag : string) (value : Tensor).

(** Graph construction is a writer over the event log. *)
Definition GraphM (A : Type) : Type := A * list Event.

Definition graph_ret {A} (a : A) : GraphM A := (a, []).

Definition graph_bind {A B} (m : GraphM A) (k : A → GraphM B) : GraphM B :=
  let r := k m.1 in (r.1, m.2 ++ r.2).

Definition tell (e : Event) : GraphM unit := (tt, [e]).

Declare Scope graph_scope.
Delimit Scope graph_scope with graph.
Notation "x ← m ; k" := (graph_bind m (λ x, k))
  (at level 20, m at level 100, k at level 200, only parsing) : graph_scope.
Notation "m ;; k" := (graph_bind m (λ _, k))
  (at level 100, k at level 200, only parsing, right associativity)
  : graph_scope.

Module summary.
Definition scalar (tag : string) (value : Tensor) : GraphM unit :=
  tell (SummaryScalar tag value).

Definition histogram (tag : string) (value : Tensor) : GraphM unit :=
  tell (SummaryHistogram tag value).
End summary.

Module variable_scope.
(** [with variable_scope.variable_scope(name, values=..., partitioner=...)
    as scope: body]. *)
Definition variable_scope {A} (name : string) (values : list ScopeValue)
    (partitioner : Partitioner) (body : VariableScope → GraphM A)
    : GraphM A :=
  (let scope := {| scope_name := name; scope_partitioner := partitioner |} in
   tell (EnterVariableScope scope values);;
   r ← body scope;
   tell (ExitVariableScope scope);;
   graph_ret r)%graph.
End variable_scope.

(** [for x in xs: acc = body(acc, x)]. *)
Fixpoint for_each {A S} (xs : list A) (acc : S) (body : S → A → GraphM S)
    : GraphM S :=
  match xs with
  | [] => graph_ret acc
  | x :: xs' => (acc' ← body acc x; for_each xs' acc' body)%graph
  end.

(** [enumerate(l, start)]. *)
Fixpoint enumerate_from {A} (start : nat) (l : list A) : list (nat * A) :=
  match l with
  | [] => []
  | x :: l' => (start, x) :: enumerate_from (S start) l'
  end.

Definition enumerate {A} (l : list A) : list (nat * A) := enumerate_from 0 l.

(** ["%d" % i] for a list index. *)
Definition fmt_d (i : nat) : string := pretty i.

(** ** Collaborators of the model function *)

(** A loss tensor produced by the head. *)
Inductive Loss := LossTensor (name : string).

(** [contrib_variables.get_global_step()]. *)
Inductive GlobalStep := GetGlobalStep.

(** [dnn_linear_combined._extract_embedding_lr_multipliers], kept as the
    call it is: the multipliers configured, the collection name and the
    scope of the input layer. *)
Record GradientMultipliers := {
  gm_embedding_lr_multipliers : option (list (FeatureColumn * float));
  gm_collection_name : string;
  gm_input_layer_scope : string
}.

Module dnn_linear_combined.
Definition _extract_embedding_lr_multipliers
    (embedding_lr_multipliers : option (list (FeatureColumn * float)))
    (collection_name input_layer_scope : string) : GradientMultipliers :=
  {| gm_embedding_lr_multipliers := embedding_lr_multipliers;
     gm_collection_name := collection_name;
     gm_input_layer_scope := input_layer_scope |}.
End dnn_linear_combined.

(** [optimizers.optimize_loss(...)]: the training op is the call with its
    keyword arguments. *)
Module optimizers.
Record optimize_loss := {
  loss : Loss;
  global_step : GlobalStep;
  learning_rate : float;
  optimizer : PyValue;
  gradient_multipliers : GradientMultipliers;
  clip_gradients : option float;
  name : string;
  summaries : list string
}.
End optimizers.

Module head_lib.
Inductive HeadKind :=
| MultiClass (n_classes : Z)
| Regression (label_dimension : Z).

(** A [_Head] instance. *)
Record Head := {
  kind : HeadKind;
  logits_dimension : Z;
  weight_column_name : option string;
  enable_centered_bias : bool
}.

(** [head.head_ops(features, labels, mode, train_op_fn, logits)]: what the
    model function returns is this call. *)
Record head_ops := {
  head : Head;
  features : gmap string FeatureTensor;
  labels : option FeatureTensor;
  mode : ModeKeys;
  train_op_fn : Loss → optimizers.optimize_loss;
  logits : Tensor
}.

Section constructors.
(** The output dimensionality a head of a given kind requires is the
    head's own business. *)
Variable required_logits_dimension : HeadKind → Z.

(** Modelled from the spec: [_multi_class_head] is defined in [head.py],
    which is not part of this module.  "[n_classes < 2] → validation failure
    raised during head construction"; the docstring of
    [DNNClassifier.__init__] names the failure: "ValueError: If [n_classes]
    < 2". *)
Definition _multi_class_head (n_classes : Z)
    (weight_column_name : option string) (enable_centered_bias : bool)
    : Exc Head :=
  if decide (n_classes < 2)
  then Raise (ValueError "n_classes must be > 1 for classification")
  else Return {| kind := MultiClass n_classes;
                 logits_dimension :=
                   required_logits_dimension (MultiClass n_classes);
                 weight_column_name := weight_column_name;
                 enable_centered_bias := enable_centered_bias |}.

(** Modelled from the spec: [_regression_head] is defined in [head.py]; it
    is "a regression head producing [label_dimension] continuous outputs
    per example", and the spec names no failure for it. *)
Definition _regression_head (label_dimension : Z)
    (weight_column_name : option string) (enable_centered_bias : bool)
    : Head :=
  {| kind := Regression label_dimension;
     logits_dimension :=
       required_logits_dimension (Regression label_dimension);
     weight_column_name := weight_column_name;
     enable_centered_bias := enable_centered_bias |}.
End constructors.
End head_lib.

(** [RunConfig]: the one attribute the module reads. *)
Record RunConfig := { num_ps_replicas : Z }.

(** The [features] argument: a single tensor or a dict of tensors. *)
Inductive Features :=
| FeaturesTensor (t : FeatureTensor)
| FeaturesDict (d : gmap string FeatureTensor).

(** The hyperparameter dict.  The keys read with [params[...]] are plain
    fields; a key read with [params.get(...)] is [None] when absent, and
    its value has the documented type, itself optional where Python's
    [None] is allowed. *)
Module Params.
Record t := {
  head : head_lib.Head;
  hidden_units : list Z;
  feature_columns : list FeatureColumn;
  optimizer : option PyValue;
  activation_fn : option (option ActivationFn);
  dropout : option (option float);
  gradient_clip_norm : option (option float);
  embedding_lr_multipliers : option (option (list (FeatureColumn * float)))
}.

Definition set_dropout (d : option (option float)) (p : t) : t :=
  {| head := head p;
     hidden_units := hidden_units p;
     feature_columns := feature_columns p;
     optimizer := optimizer p;
     activation_fn := activation_fn p;
     dropout := d;
     gradient_clip_norm := gradient_clip_norm p;
     embedding_lr_multipliers := embedding_lr_multipliers p |}.

Definition set_optimizer (o : option PyValue) (p : t) : t :=
  {| head := head p;
     hidden_units := hidden_units p;
     feature_columns := feature_columns p;
     optimizer := o;
     activation_fn := activation_fn p;
     dropout := dropout p;
     gradient_clip_norm := gradient_clip_norm p;
     embedding_lr_multipliers := embedding_lr_multipliers p |}.
End Params.

(** ** The module *)

Definition _CENTERED_BIAS_WEIGHT : string := "centered_bias_weight".

Definition _LEARNING_RATE : float := 0.05%float.

Definition _get_feature_dict (features : Features)
    : gmap string FeatureTensor :=
  match features with
  | FeaturesDict d => d
  | FeaturesTensor t => {[ "" := t ]}
  end.

Definition _get_optimizer (optimizer : PyValue) : PyValue :=
  match optimizer with
  | PyCallable f => f tt
  | _ => optimizer
  end.

Definition _add_hidden_layer_summary (value : Tensor) (tag : string)
    : GraphM unit :=
  (summary.scalar (tag +:+ "_fraction_of_zero_values")
     (nn.zero_fraction value);;
   summary.histogram (tag +:+ "_activation") value)%graph.

Definition parent_scope : string := "dnn".

Definition input_layer_scope : string :=
  parent_scope +:+ "/input_from_feature_columns".

(** The body of the loop over [enumerate(hidden_units)]; the loop carries
    [net]. *)
Definition hidden_layer (mode : ModeKeys)
    (activation_fn : option ActivationFn) (dropout : option float)
    (hidden_layer_partitioner : Partitioner)
    (net : Tensor) (item : nat * Z) : GraphM Tensor :=
  (let '(layer_id, num_hidden_units) := item in
   r ← variable_scope.variable_scope
         (parent_scope +:+ "/hiddenlayer_" +:+ fmt_d layer_id)
         [OfTensor net] hidden_layer_partitioner
         (λ scope,
            let net :=
              layers.fully_connected net num_hidden_units activation_fn
                [parent_scope] scope in
            let net :=
              match dropout with
              | Some rate =>
                  if decide (mode = model_fn.TRAIN)
                  then layers.dropout net (1 - rate)%float
                  else net
              | None => net
              end in
            graph_ret (scope, net));
   let '(scope, net) := r in
   _add_hidden_layer_summary net (scope_name scope);;
   graph_ret net)%graph.

(** The closure handed to the head; [optimizer], the multipliers and the
    clip norm are the locals of [_dnn_model_fn] it captures. *)
Definition _train_op_fn (optimizer : PyValue)
    (embedding_lr_multipliers : option (list (FeatureColumn * float)))
    (gradient_clip_norm : option float)
    (loss : Loss) : optimizers.optimize_loss :=
  {| optimizers.loss := loss;
     optimizers.global_step := GetGlobalStep;
     optimizers.learning_rate := _LEARNING_RATE;
     optimizers.optimizer := _get_optimizer optimizer;
     optimizers.gradient_multipliers :=
       dnn_linear_combined._extract_embedding_lr_multipliers
         embedding_lr_multipliers parent_scope input_layer_scope;
     optimizers.clip_gradients := gradient_clip_norm;
     optimizers.name := parent_scope;
     optimizers.summaries := [] |}.

Definition _dnn_model_fn (features : Features)
    (labels : option FeatureTensor) (mode : ModeKeys) (params : Params.t)
    (config : option RunConfig) : GraphM head_lib.head_ops :=
  (let head := Params.head params in
   let hidden_units := Params.hidden_units params in
   let feature_columns := Params.feature_columns params in
   let optimizer :=
     py_or (dict_get (Params.optimizer params) PyNone) (PyStr "Adagrad") in
   let activation_fn := dict_get (Params.activation_fn params) None in
   let dropout := dict_get (Params.dropout params) None in
   let gradient_clip_norm :=
     dict_get (Params.gradient_clip_norm params) None in
   let num_ps_replicas :=
     match config with
     | Some config => num_ps_replicas config
     | None => 0
     end in
   let embedding_lr_multipliers :=
     dict_get (Params.embedding_lr_multipliers params) (Some []) in
   let features := _get_feature_dict features in
   let input_layer_partitioner :=
     partitioned_variables.min_max_variable_partitioner
       num_ps_replicas (Some (Z.shiftl 64 20)) in
   net ← variable_scope.variable_scope input_layer_scope
           (OfFeature <$> (map_to_list features).*2) input_layer_partitioner
           (λ scope,
              graph_ret
                (layers.input_from_feature_columns features feature_columns
                   [parent_scope] scope));
   let hidden_layer_partitioner :=
     partitioned_variables.min_max_variable_partitioner
       num_ps_replicas None in
   net ← for_each (enumerate hidden_units) net
           (hidden_layer mode activation_fn dropout
              hidden_layer_partitioner);
   r ← variable_scope.variable_scope (parent_scope +:+ "/logits")
         [OfTensor net] hidden_layer_partitioner
         (λ scope,
            graph_ret
              (scope,
               layers.fully_connected net (head_lib.logits_dimension head)
                 None [parent_scope] scope));
   let '(scope, logits) := r in
   _add_hidden_layer_summary logits (scope_name scope);;
   graph_ret
     {| head_lib.head := head;
        head_lib.features := features;
        head_lib.labels := labels;
        head_lib.mode := mode;
        head_lib.train_op_fn :=
          _train_op_fn optimizer embedding_lr_multipliers gradient_clip_norm;
        head_lib.logits := logits |})%graph.

(** ** Python dicts whose iteration order matters *)

(** A dict as the list of its items in iteration order; keys are unique. *)
Section dict.
Context {K V : Type} `{EqDecision K}.

(** [d[k]], [None] when the key is absent. *)
Fixpoint dict_lookup (k : K) (d : list (K * V)) : option V :=
  match d with
  | [] => None
  | (k', v) :: d' => if decide (k' = k) then Some v else dict_lookup k d'
  end.

(** [d[k] = v]: an existing key keeps its place and takes the new value, a
    new key goes last. *)
Fixpoint dict_setitem (k : K) (v : V) (d : list (K * V)) : list (K * V) :=
  match d with
  | [] => [(k, v)]
  | (k', v') :: d' =>
      if decide (k' = k) then (k, v) :: d' else (k', v') :: dict_setitem k v d'
  end.
End dict.

(** ** The generic [Estimator] *)

(** A key of the [metrics] dict: a bare name, or a tuple pairing a name
    with the prediction it is computed on. *)
Inductive MetricKey :=
| KeyName (name : string)
| KeyTuple (name : string) (prediction : PredictionKey).

#[global] Instance MetricKey_eq_dec : EqDecision MetricKey.
Proof. solve_decision. Defined.

(** A value of the [metrics] dict: a [metric_spec.MetricSpec] instance, or a
    metric function of the older API. *)
Inductive Metric :=
| MetricSpec (spec : PyObj)
| MetricFn (fn : PyObj).

Module estimator.
Record Estimator := {
  model_fn :
    Features → option FeatureTensor → ModeKeys → Params.t →
    option RunConfig → GraphM head_lib.head_ops;
  model_dir : option PyObj;
  config : option RunConfig;
  params : Params.t;
  feature_engineering_fn : option PyObj
}.

(** Calls delegated to the estimator, with their keyword arguments in the
    order the wrappers write them. *)
Inductive call :=
| evaluate (self : Estimator)
    (x y input_fn feed_fn batch_size steps : option PyObj)
    (metrics : option (list (MetricKey * Metric)))
    (name checkpoint_path : option PyObj)
| predict (self : Estimator) (x input_fn batch_size : option PyObj)
    (outputs : list PredictionKey) (as_iterable : bool).

(** [self.get_variable_value(name)]. *)
Inductive ndarray := get_variable_value (self : Estimator) (name : string).
End estimator.

(** What [predict] and [predict_proba] make of the estimator's
    predictions. *)
Inductive Predictions :=
| EachItem (preds : estimator.call) (key : PredictionKey)
| GetItem (preds : estimator.call) (key : PredictionKey)
| Reshape (a : Predictions) (shape : list Z).

(** ** [DNNClassifier] *)

Module DNNClassifier.
Record t := {
  _hidden_units : list Z;
  _feature_columns : list FeatureColumn;
  _enable_centered_bias : bool;
  _estimator : estimator.Estimator
}.

Section init.
Variable required_logits_dimension : head_lib.HeadKind → Z.

(** The head is built while the arguments of [estimator.Estimator(...)] are
    evaluated, so its failure leaves [__init__] before the estimator
    exists. *)
Definition __init__ (hidden_units : list Z)
    (feature_columns : list FeatureColumn) (model_dir : option PyObj)
    (n_classes : Z) (weight_column_name : option string)
    (optimizer : PyValue) (activation_fn : option ActivationFn)
    (dropout gradient_clip_norm : option float)
    (enable_centered_bias : bool) (config : option RunConfig)
    (feature_engineering_fn : option PyObj)
    (embedding_lr_multipliers : option (list (FeatureColumn * float)))
    : Exc t :=
  (head ← head_lib._multi_class_head required_logits_dimension n_classes
            weight_column_name enable_centered_bias;
   Return
     {| _hidden_units := hidden_units;
        _feature_columns := feature_columns;
        _enable_centered_bias := enable_centered_bias;
        _estimator :=
          {| estimator.model_fn := _dnn_model_fn;
             estimator.model_dir := model_dir;
             estimator.config := config;
             estimator.params :=
               {| Params.head := head;
                  Params.hidden_units := hidden_units;
                  Params.feature_columns := feature_columns;
                  Params.optimizer := Some optimizer;
                  Params.activation_fn := Some activation_fn;
                  Params.dropout := Some dropout;
                  Params.gradient_clip_norm := Some gradient_clip_norm;
                  Params.embedding_lr_multipliers :=
                    Some embedding_lr_multipliers |};
             estimator.feature_engineering_fn := feature_engineering_fn |}
     |})%exc.
End init.

Definition evaluate (self : t)
    (x y input_fn feed_fn batch_size steps : option PyObj)
    (metrics : option (list (MetricKey * Metric)))
    (name checkpoint_path : option PyObj) : estimator.call :=
  estimator.evaluate (_estimator self) x y input_fn feed_fn batch_size steps
    metrics name checkpoint_path.

Definition predict (self : t) (x input_fn batch_size : option PyObj)
    (as_iterable : bool) : Predictions :=
  let key := prediction_key.CLASSES in
  let preds :=
    estimator.predict (_estimator self) x input_fn batch_size [key]
      as_iterable in
  if as_iterable then EachItem preds key
  else Reshape (GetItem preds key) [-1].

Definition predict_proba (self : t) (x input_fn batch_size : option PyObj)
    (as_iterable : bool) : Predictions :=
  let key := prediction_key.PROBABILITIES in
  let preds :=
    estimator.predict (_estimator self) x input_fn batch_size [key]
      as_iterable in
  if as_iterable then EachItem preds key
  else GetItem preds key.

Definition get_variable_value (self : t) (name : string)
    : estimator.ndarray :=
  estimator.get_variable_value (_estimator self) name.

Definition weights_ (self : t) : list estimator.ndarray :=
  let hiddenlayer_weights :=
    (λ item : nat * Z,
       get_variable_value self
         ("dnn/hiddenlayer_" +:+ fmt_d item.1 +:+ "/weights"))
    <$> enumerate (_hidden_units self) in
  let logits_weights := [get_variable_value self "dnn/logits/weights"] in
  hiddenlayer_weights ++ logits_weights.

Definition bias_ (self : t) : list estimator.ndarray :=
  let hiddenlayer_bias :=
    (λ item : nat * Z,
       get_variable_value self
         ("dnn/hiddenlayer_" +:+ fmt_d item.1 +:+ "/biases"))
    <$> enumerate (_hidden_units self) in
  let logits_bias := [get_variable_value self "dnn/logits/biases"] in
  let centered_bias :=
    if _enable_centered_bias self
    then [get_variable_value self _CENTERED_BIAS_WEIGHT]
    else [] in
  hiddenlayer_bias ++ logits_bias ++ centered_bias.
End DNNClassifier.

(** ** [DNNRegressor] *)

Module DNNRegressor.
Record t := {
  _feature_columns : list FeatureColumn;
  _estimator : estimator.Estimator
}.

Section init.
Variable required_logits_dimension : head_lib.HeadKind → Z.

Definition __init__ (hidden_units : list Z)
    (feature_columns : list FeatureColumn) (model_dir : option PyObj)
    (weight_column_name : option string)
    (optimizer : PyValue) (activation_fn : option ActivationFn)
    (dropout gradient_clip_norm : option float)
    (enable_centered_bias : bool) (config : option RunConfig)
    (feature_engineering_fn : option PyObj) (label_dimension : Z)
    (embedding_lr_multipliers : option (list (FeatureColumn * float)))
    : t :=
  {| _feature_columns := feature_columns;
     _estimator :=
       {| estimator.model_fn := _dnn_model_fn;
          estimator.model_dir := model_dir;
          estimator.config := config;
          estimator.params :=
            {| Params.head :=
                 head_lib._regression_head required_logits_dimension
                   label_dimension weight_column_name enable_centered_bias;
               Params.hidden_units := hidden_units;
               Params.feature_columns := feature_columns;
               Params.optimizer := Some optimizer;
               Params.activation_fn := Some activation_fn;
               Params.dropout := Some dropout;
               Params.gradient_clip_norm := Some gradient_clip_norm;
               Params.embedding_lr_multipliers :=
                 Some embedding_lr_multipliers |};
          estimator.feature_engineering_fn := feature_engineering_fn |} |}.
End init.

(** One turn of the loop over [six.iteritems(metrics)]. *)
Definition remap_metric (custom_metrics : list (MetricKey * Metric))
    (item : MetricKey * Metric) : list (MetricKey * Metric) :=
  let '(key, metric) := item in
  match metric, key with
  | MetricFn _, KeyName name =>
      dict_setitem (KeyTuple name prediction_key.SCORES) metric
        custom_metrics
  | _, _ => dict_setitem key metric custom_metrics
  end.

(** The [custom_metrics] dict [evaluate] builds; [if metrics:] is false for
    [None] and for the empty dict. *)
Definition custom_metrics_of (metrics : option (list (MetricKey * Metric)))
    : list (MetricKey * Metric) :=
  let custom_metrics := [] in
  match metrics with
  | Some ((_ :: _) as items) => foldl remap_metric custom_metrics items
  | _ => custom_metrics
  end.

Definition evaluate (self : t)
    (x y input_fn feed_fn batch_size steps : option PyObj)
    (metrics : option (list (MetricKey * Metric)))
    (name checkpoint_path : option PyObj) : estimator.call :=
  let custom_metrics := custom_metrics_of metrics in
  estimator.evaluate (_estimator self) x y input_fn feed_fn batch_size steps
    (Some custom_metrics) name checkpoint_path.

Definition predict (self : t) (x input_fn batch_size : option PyObj)
    (as_iterable : bool) : Predictions :=
  let key := prediction_key.SCORES in
  let preds :=
    estimator.predict (_estimator self) x input_fn batch_size [key]
      as_iterable in
  if as_iterable then EachItem preds key
  else GetItem preds key.
End DNNRegressor.

(** * Observations and terms of the properties *)

(** ** Reading the graph *)

(** The feature dict at the root of a network. *)
Fixpoint graph_input (t : Tensor) : gmap string FeatureTensor :=
  match t with
  | InputFromFeatureColumns columns_to_tensors _ _ _ => columns_to_tensors
  | FullyConnected inputs _ _ _ _ => graph_input inputs
  | Dropout inputs _ => graph_input inputs
  | ZeroFraction value => graph_input value
  end.

(** The scopes of the fully connected layers of a network, input side
    first. *)
Fixpoint fully_connected_scopes (t : Tensor) : list string :=
  match t with
  | InputFromFeatureColumns _ _ _ _ => []
  | FullyConnected inputs _ _ _ scope =>
      fully_connected_scopes inputs ++ [scope_name scope]
  | Dropout inputs _ => fully_connected_scopes inputs
  | ZeroFraction value => fully_connected_scopes value
  end.

(** The tensor is [layers.dropout] applied to the output of a fully
    connected layer. *)
Definition is_dropout (t : Tensor) : bool :=
  match t with
  | Dropout (FullyConnected _ _ _ _ _) _ => true
  | _ => false
  end.

(** The variable scopes a log opens, in order. *)
Definition entered_scopes (log : list Event) : list VariableScope :=
  omap (λ e, match e with
             | EnterVariableScope scope _ => Some scope
             | _ => None
             end) log.

(** The tensors a log summarises as histograms: the output of every
    layer, in order. *)
Definition layer_outputs (log : list Event) : list Tensor :=
  omap (λ e, match e with
             | SummaryHistogram _ value => Some value
             | _ => None
             end) log.

(** The scope of hidden layer [layer_id]. *)
Definition hiddenlayer_scope_name (layer_id : nat) : string :=
  "dnn/hiddenlayer_" +:+ fmt_d layer_id.

(** ** The parts of the model function *)

Section model_parts.
Variables (features : Features) (labels : option FeatureTensor)
  (mode : ModeKeys) (params : Params.t) (config : option RunConfig).

Definition shard_count : Z :=
  match config with
  | Some config => num_ps_replicas config
  | None => 0
  end.

Definition input_scope : VariableScope :=
  {| scope_name := "dnn/input_from_feature_columns";
     scope_partitioner :=
       {| max_partitions := shard_count;
          min_slice_size := Some (Z.shiftl 64 20) |} |}.

Definition hidden_scope (name : string) : VariableScope :=
  {| scope_name := name;
     scope_partitioner :=
       {| max_partitions := shard_count; min_slice_size := None |} |}.

Definition input_net : Tensor :=
  InputFromFeatureColumns (_get_feature_dict features)
    (Params.feature_columns params) ["dnn"] input_scope.

Definition hidden_net : GraphM Tensor :=
  for_each (enumerate (Params.hidden_units params)) input_net
    (hidden_layer mode (dict_get (Params.activation_fn params) None)
       (dict_get (Params.dropout params) None)
       {| max_partitions := shard_count; min_slice_size := None |}).

Definition logits_net : Tensor :=
  FullyConnected hidden_net.1
    (head_lib.logits_dimension (Params.head params)) None ["dnn"]
    (hidden_scope "dnn/logits").
End model_parts.

(** ** Optimizer factories and metric keys *)

(** The equivalence of C4: passing the zero-argument callable [f] as the
    optimizer and passing its result [f()] give the same graph and the same
    call of the head. *)
Definition factory_equivalent (f : unit → PyValue) : Prop :=
  ∀ features labels mode params config,
    _dnn_model_fn features labels mode
      (Params.set_optimizer (Some (PyCallable f)) params) config
    = _dnn_model_fn features labels mode
        (Params.set_optimizer (Some (f tt)) params) config.

(** The key under which an entry of [metrics] is to be forwarded: the pair with [SCORES]
    for a bare name whose metric is not a [MetricSpec], the key itself
    otherwise. *)
Definition remapped_key (item : MetricKey * Metric) : MetricKey :=
  match item with
  | (KeyName name, MetricFn _) => KeyTuple name prediction_key.SCORES
  | (key, _) => key
  end.

(** An entry of [metrics] under its remapped key. *)
Definition remapped_item (item : MetricKey * Metric) : MetricKey * Metric :=
  (remapped_key item, item.2).

(** The remapping of C7: every entry of [metrics] is found in the mapping
    forwarded to the estimator under its remapped key. *)
Definition remaps_every_entry (metrics forwarded : list (MetricKey * Metric))
    : Prop :=
  ∀ key metric,
    (key, metric) ∈ metrics →
    dict_lookup (remapped_key (key, metric)) forwarded = Some metric.

(** ** Sample inputs *)

Definition example_head : head_lib.Head :=
  {| head_lib.kind := head_lib.MultiClass 3;
     head_lib.logits_dimension := 3;
     head_lib.weight_column_name := None;
     head_lib.enable_centered_bias := false |}.

Definition example_params : Params.t :=
  {| Params.head := example_head;
     Params.hidden_units := [4; 2];
     Params.feature_columns := [ {| column_name := "age" |} ];
     Params.optimizer := Some PyNone;
     Params.activation_fn := Some (Some {| activation_name := "relu" |});
     Params.dropout := Some (Some 0.5%float);
     Params.gradient_clip_norm := Some None;
     Params.embedding_lr_multipliers := Some None |}.

Definition example_features : Features :=
  FeaturesTensor (Placeholder "x").

Definition example_optimizer : Optimizer :=
  {| optimizer_class := "ProximalAdagradOptimizer";
     optimizer_learning_rate := 0.5 |}.

Definition example_loss : Loss := LossTensor "loss".

Definition example_train_op (optimizer : option PyValue)
    : optimizers.optimize_loss :=
  head_lib.train_op_fn
    (_dnn_model_fn example_features None model_fn.TRAIN
       (Params.set_optimizer optimizer example_params) None).1
    example_loss.


(** One logit per class and per label dimension. *)
Definition example_logits_dimension (kind : head_lib.HeadKind) : Z :=
  match kind with
  | head_lib.MultiClass n_classes => n_classes
  | head_lib.Regression label_dimension => label_dimension
  end.

Definition example_classifier (n_classes : Z) : Exc DNNClassifier.t :=
  DNNClassifier.__init__ example_logits_dimension [4; 2]
    [ {| column_name := "age" |} ] None n_classes None PyNone
    (Some {| activation_name := "relu" |}) None None true None None None.

Definition example_regressor : DNNRegressor.t :=
  DNNRegressor.__init__ example_logits_dimension [4; 2]
    [ {| column_name := "age" |} ] None None PyNone
    (Some {| activation_name := "relu" |}) None None false None None 1 None.

Definition example_metrics : list (MetricKey * Metric) :=
  [(KeyName "mse", MetricFn (Obj "streaming_mean_squared_error"));
   (KeyName "mae", MetricSpec (Obj "mean_absolute_error_spec"));
   (KeyTuple "rmse" prediction_key.SCORES,
    MetricFn (Obj "streaming_root_mean_squared_error"))].

(** A [metrics] dict holding a bare name together with the tuple key it is
    remapped to. *)
Definition colliding_metrics : list (MetricKey * Metric) :=
  [(KeyName "mse", MetricFn (Obj "streaming_mean_squared_error"));
   (KeyTuple "mse" prediction_key.SCORES, MetricFn (Obj "custom_mse"))].

(** ** Export *)

(** An optional argument of [export] that the code tests with [or]:
    [None], or an object given by the caller together with its truth
    value.  A function is true; an object whose class defines [__bool__]
    or [__len__] may be false. *)
Inductive PyArg :=
| ArgNone
| ArgObject (obj : PyObj) (truth : bool).

(** The truth value of such an argument. *)
Definition arg_truthy (a : PyArg) : bool :=
  match a with
  | ArgNone => false
  | ArgObject _ truth => truth
  end.

(** The [input_fn] handed to [Estimator.export]: the caller's, or the
    closure [default_input_fn] of [export], which parses the examples with
    [layers.parse_feature_columns_from_examples(examples,
    self._feature_columns)]. *)
Inductive ExportInputFn :=
| GivenInputFn (fn : PyArg)
| default_input_fn (feature_columns : list FeatureColumn).

(** The [signature_fn] handed to [Estimator.export]: the caller's, or one
    of the two defaults from the [export] utilities. *)
Inductive SignatureFn :=
| GivenSignatureFn (fn : PyArg)
| classification_signature_fn_with_prob
| regression_signature_fn.

(** [self._estimator.export(...)] with its keyword arguments. *)
Record estimator_export := {
  export_self : estimator.Estimator;
  export_dir : PyObj;
  export_input_fn : ExportInputFn;
  export_input_feature_key : option PyObj;
  export_use_deprecated_input_fn : bool;
  export_signature_fn : SignatureFn;
  export_prediction_key : PredictionKey;
  export_default_batch_size : Z;
  export_exports_to_keep : option PyObj
}.

(** [DNNClassifier.export]: [input_fn or default_input_fn] and
    [signature_fn or export.classification_signature_fn_with_prob] keep
    the argument when it is true as a truth value and take the default
    otherwise. *)
Definition DNNClassifier_export (self : DNNClassifier.t) (export_dir : PyObj)
    (input_fn : PyArg) (input_feature_key : option PyObj)
    (use_deprecated_input_fn : bool) (signature_fn : PyArg)
    (default_batch_size : Z) (exports_to_keep : option PyObj)
    : estimator_export :=
  {| export_self := DNNClassifier._estimator self;
     export_dir := export_dir;
     export_input_fn :=
       if arg_truthy input_fn then GivenInputFn input_fn
       else default_input_fn (DNNClassifier._feature_columns self);
     export_input_feature_key := input_feature_key;
     export_use_deprecated_input_fn := use_deprecated_input_fn;
     export_signature_fn :=
       if arg_truthy signature_fn then GivenSignatureFn signature_fn
       else classification_signature_fn_with_prob;
     export_prediction_key := prediction_key.PROBABILITIES;
     export_default_batch_size := default_batch_size;
     export_exports_to_keep := exports_to_keep |}.

(** [DNNRegressor.export], with [export.regression_signature_fn] as the
    default signature. *)
Definition DNNRegressor_export (self : DNNRegressor.t) (export_dir : PyObj)
    (input_fn : PyArg) (input_feature_key : option PyObj)
    (use_deprecated_input_fn : bool) (signature_fn : PyArg)
    (default_batch_size : Z) (exports_to_keep : option PyObj)
    : estimator_export :=
  {| export_self := DNNRegressor._estimator self;
     export_dir := export_dir;
     export_input_fn :=
       if arg_truthy input_fn then GivenInputFn input_fn
       else default_input_fn (DNNRegressor._feature_columns self);
     export_input_feature_key := input_feature_key;
     export_use_deprecated_input_fn := use_deprecated_input_fn;
     export_signature_fn :=
       if arg_truthy signature_fn then GivenSignatureFn signature_fn
       else regression_signature_fn;
     export_prediction_key := prediction_key.SCORES;
     export_default_batch_size := default_batch_size;
     export_exports_to_keep := exports_to_keep |}.

(** The feature columns the input layer of a network is built from. *)
Fixpoint input_feature_columns (t : Tensor) : list FeatureColumn :=
  match t with
  | InputFromFeatureColumns _ feature_columns _ _ => feature_columns
  | FullyConnected inputs _ _ _ _ => input_feature_columns inputs
  | Dropout inputs _ => input_feature_columns inputs
  | ZeroFraction value => input_feature_columns value
  end.

(** The prediction keys a call of [Estimator.predict] asks for. *)
Definition requested_outputs (c : estimator.call) : list PredictionKey :=
  match c with
  | estimator.predict _ _ _ _ outputs _ => outputs
  | estimator.evaluate _ _ _ _ _ _ _ _ _ _ => []
  end.

(** The call of [Estimator.predict] behind the result of a [predict]
    method, and the key the result is indexed by. *)
Fixpoint predictions_source (p : Predictions)
    : estimator.call * PredictionKey :=
  match p with
  | EachItem preds key => (preds, key)
  | GetItem preds key => (preds, key)
  | Reshape a _ => predictions_source a
  end.

(** ** Further readings of the graph *)

(** The fully connected layers of a network, input side first: scope name,
    number of outputs, activation function and variable collections. *)
Fixpoint fully_connected_layers (t : Tensor)
    : list (string * Z * option ActivationFn * list string) :=
  match t with
  | InputFromFeatureColumns _ _ _ _ => []
  | FullyConnected inputs num_outputs activation_fn collections scope =>
      fully_connected_layers inputs
      ++ [(scope_name scope, num_outputs, activation_fn, collections)]
  | Dropout inputs _ => fully_connected_layers inputs
  | ZeroFraction value => fully_connected_layers value
  end.

(** The tensor each fully connected layer of a network consumes, input side
    first. *)
Fixpoint fully_connected_inputs (t : Tensor) : list Tensor :=
  match t with
  | InputFromFeatureColumns _ _ _ _ => []
  | FullyConnected inputs _ _ _ _ => fully_connected_inputs inputs ++ [inputs]
  | Dropout inputs _ => fully_connected_inputs inputs
  | ZeroFraction value => fully_connected_inputs value
  end.

(** The [keep_prob] of every dropout node of a network, input side first. *)
Fixpoint dropout_keep_probs (t : Tensor) : list float :=
  match t with
  | InputFromFeatureColumns _ _ _ _ => []
  | FullyConnected inputs _ _ _ _ => dropout_keep_probs inputs
  | Dropout inputs keep_prob => dropout_keep_probs inputs ++ [keep_prob]
  | ZeroFraction value => dropout_keep_probs value
  end.

(** The [scope] argument of the input layer and of every fully connected
    layer of a network, input side first. *)
Fixpoint node_scopes (t : Tensor) : list VariableScope :=
  match t with
  | InputFromFeatureColumns _ _ _ scope => [scope]
  | FullyConnected inputs _ _ _ scope => node_scopes inputs ++ [scope]
  | Dropout inputs _ => node_scopes inputs
  | ZeroFraction value => node_scopes value
  end.

#[global] Instance Partitioner_eq_dec : EqDecision Partitioner.
Proof. solve_decision. Defined.

#[global] Instance VariableScope_eq_dec : EqDecision VariableScope.
Proof. solve_decision. Defined.

(** Replays a log against the discipline of flat scopes: a scope is
    entered only while none is open, left only while it is the open one,
    and a summary is written only while none is open.  The result is the
    scope left open at the end, or [None] where the discipline is
    broken. *)
Fixpoint scope_walk (open : option VariableScope) (log : list Event)
    : option (option VariableScope) :=
  match log with
  | [] => Some open
  | EnterVariableScope scope _ :: log' =>
      match open with
      | None => scope_walk (Some scope) log'
      | Some _ => None
      end
  | ExitVariableScope scope :: log' =>
      match open with
      | Some scope' =>
          if decide (scope' = scope) then scope_walk None log' else None
      | None => None
      end
  | SummaryScalar _ _ :: log' | SummaryHistogram _ _ :: log' =>
      match open with
      | None => scope_walk None log'
      | Some _ => None
      end
  end.

(** The tags of the summaries a log writes, in order. *)
Definition summary_tags (log : list Event) : list string :=
  omap (λ e, match e with
             | SummaryScalar tag _ | SummaryHistogram tag _ => Some tag
             | _ => None
             end) log.

(** The scalar summaries of a log with the tensor each one measures. *)
Definition scalar_summaries (log : list Event) : list Tensor :=
  omap (λ e, match e with
             | SummaryScalar _ value => Some value
             | _ => None
             end) log.

(** The summaries a log writes, in order. *)
Definition summary_events (log : list Event) : list Event :=
  omap (λ e, match e with
             | SummaryScalar _ _ | SummaryHistogram _ _ => Some e
             | _ => None
             end) log.

(** The output of every fully connected layer of a network, dropout
    included, input side first: what the next layer consumes and, for the
    last layer, the network itself. *)
Definition network_outputs (t : Tensor) : list Tensor :=
  drop 1 (fully_connected_inputs t) ++ [t].

(** The two summaries of a layer, in the order they are written. *)
Definition layer_summaries (scope : string) (out : Tensor) : list Event :=
  [SummaryScalar (scope +:+ "_fraction_of_zero_values") (ZeroFraction out);
   SummaryHistogram (scope +:+ "_activation") out].

(** The two summary tags of a layer. *)
Definition layer_summary_tags (scope : string) : list string :=
  [scope +:+ "_fraction_of_zero_values"; scope +:+ "_activation"].

(** What one turn of the loop over [hidden_units] adds to the layers of
    the network. *)
Definition layer_entry (activation_fn : option ActivationFn)
    (item : nat * Z) : string * Z * option ActivationFn * list string :=
  (hiddenlayer_scope_name item.1, item.2, activation_fn, ["dnn"]).

(** What one turn of the loop adds to the dropout nodes of the network. *)
Definition layer_keep_probs (mode : ModeKeys) (dropout : option float)
    : list float :=
  match dropout with
  | Some rate =>
      if decide (mode = model_fn.TRAIN) then [(1 - rate)%float] else []
  | None => []
  end.

(** ** Further terms for metrics and variables *)

(** The [metrics] argument of a call of [Estimator.evaluate]. *)
Definition metrics_argument (c : estimator.call)
    : option (list (MetricKey * Metric)) :=
  match c with
  | estimator.evaluate _ _ _ _ _ _ _ metrics _ _ => metrics
  | estimator.predict _ _ _ _ _ _ => None
  end.

(** An entry of the older metrics API: a bare name with a metric that is
    not a [MetricSpec]. *)
Definition legacy_entry (item : MetricKey * Metric) : bool :=
  match item with
  | (KeyName _, MetricFn _) => true
  | _ => false
  end.

(** The name a variable value was read under. *)
Definition variable_name (a : estimator.ndarray) : string :=
  match a with
  | estimator.get_variable_value _ name => name
  end.

(** ** Further sample inputs *)

(** A zero-argument factory of a gradient descent optimizer. *)
Definition sgd_factory : unit → PyValue :=
  λ _, PyOptimizer {| optimizer_class := "GradientDescentOptimizer";
                      optimizer_learning_rate := 0.5 |}.

(** A [metrics] dict of the newer API alone. *)
Definition new_style_metrics : list (MetricKey * Metric) :=
  [(KeyName "mae", MetricSpec (Obj "mean_absolute_error_spec"));
   (KeyTuple "rmse" prediction_key.SCORES,
    MetricFn (Obj "streaming_root_mean_squared_error"))].

(** The layers and the variable names of a classifier with
    [hidden_units]. *)
Definition classifier_scopes (self : DNNClassifier.t) : list string :=
  (hiddenlayer_scope_name
   <$> seq 0 (length (DNNClassifier._hidden_units self)))
  ++ ["dnn/logits"].

(** * Properties *)

(** ** The loop over the hidden layers *)

Section hidden_layers.
Variables (mode : ModeKeys) (activation_fn : option ActivationFn)
  (dropout : option float) (partitioner : Partitioner).

Let body := hidden_layer mode activation_fn dropout partitioner.

Ltac layer_cases :=
  destruct dropout as [rate|];
  [destruct (decide (mode = model_fn.TRAIN))|].

Lemma hidden_layer_graph_input net item :
  graph_input (body net item).1 = graph_input net.
Proof. destruct item. subst body. cbn. by layer_cases. Qed.

Lemma hidden_layer_scopes net layer_id num_hidden_units :
  fully_connected_scopes (body net (layer_id, num_hidden_units)).1
  = fully_connected_scopes net ++ [hiddenlayer_scope_name layer_id].
Proof. subst body. cbn. by layer_cases. Qed.

Lemma hidden_layer_entered net layer_id num_hidden_units :
  entered_scopes (body net (layer_id, num_hidden_units)).2
  = [ {| scope_name := hiddenlayer_scope_name layer_id;
         scope_partitioner := partitioner |} ].
Proof. reflexivity. Qed.

Lemma hidden_layer_outputs net item :
  layer_outputs (body net item).2 = [(body net item).1].
Proof. by destruct item. Qed.

Lemma hidden_layer_is_dropout net item :
  is_dropout (body net item).1 = true
  ↔ mode = model_fn.TRAIN ∧ is_Some dropout.
Proof.
  destruct item. subst body. cbn. layer_cases; cbn.
  - split; [eauto | done].
  - split; [done | by intros [? _]].
  - split; [done | by intros [_ [? ?]]].
Qed.

Lemma for_each_cons {A S} (x : A) xs (acc : S) f :
  for_each (x :: xs) acc f
  = ((for_each xs (f acc x).1 f).1,
     (f acc x).2 ++ (for_each xs (f acc x).1 f).2).
Proof. reflexivity. Qed.

Lemma hidden_layers_graph_input hidden_units start net :
  graph_input (for_each (enumerate_from start hidden_units) net body).1
  = graph_input net.
Proof.
  revert start net.
  induction hidden_units as [|u us IH]; intros start net; [done|].
  cbn [enumerate_from]. rewrite for_each_cons. cbn [fst].
  by rewrite IH, hidden_layer_graph_input.
Qed.

Lemma hidden_layers_scopes hidden_units start net :
  fully_connected_scopes
    (for_each (enumerate_from start hidden_units) net body).1
  = fully_connected_scopes net
    ++ (hiddenlayer_scope_name <$> seq start (length hidden_units)).
Proof.
  revert start net.
  induction hidden_units as [|u us IH]; intros start net.
  - cbn. by rewrite app_nil_r.
  - cbn [enumerate_from]. rewrite for_each_cons. cbn [fst].
    rewrite IH, hidden_layer_scopes, <- app_assoc. done.
Qed.

Lemma hidden_layers_entered hidden_units start net :
  entered_scopes (for_each (enumerate_from start hidden_units) net body).2
  = (λ layer_id,
       {| scope_name := hiddenlayer_scope_name layer_id;
          scope_partitioner := partitioner |})
    <$> seq start (length hidden_units).
Proof.
  revert start net.
  induction hidden_units as [|u us IH]; intros start net; [done|].
  cbn [enumerate_from]. rewrite for_each_cons. cbn [snd].
  unfold entered_scopes in *. rewrite omap_app, IH. done.
Qed.

Lemma hidden_layers_outputs hidden_units start net layer_id :
  (layer_id < length hidden_units)%nat →
  ∃ out,
    layer_outputs (for_each (enumerate_from start hidden_units) net body).2
      !! layer_id = Some out
    ∧ (is_dropout out = true ↔ mode = model_fn.TRAIN ∧ is_Some dropout).
Proof.
  revert start net layer_id.
  induction hidden_units as [|u us IH]; intros start net layer_id Hlt;
    [cbn in Hlt; lia|].
  cbn [enumerate_from]. rewrite for_each_cons. cbn [snd].
  unfold layer_outputs in *. rewrite omap_app.
  fold (layer_outputs (body net (start, u)).2).
  rewrite hidden_layer_outputs.
  destruct layer_id as [|j].
  - eexists. split; [reflexivity|]. apply hidden_layer_is_dropout.
  - cbn in Hlt. apply (IH (S start) (body net (start, u)).1 j). lia.
Qed.

End hidden_layers.

(** ** The shape the loop gives the network *)

Section hidden_layers_shape.
Variables (mode : ModeKeys) (activation_fn : option ActivationFn)
  (dropout : option float) (partitioner : Partitioner).

#[local] Abbreviation layer :=
  (hidden_layer mode activation_fn dropout partitioner).

#[local] Abbreviation hidden_layers start hidden_units net :=
  (for_each (enumerate_from start hidden_units) net layer).

Ltac shape_cases :=
  destruct dropout as [rate|];
  [destruct (decide (mode = model_fn.TRAIN))|].

Lemma hidden_layers_layers hidden_units start net :
  fully_connected_layers (hidden_layers start hidden_units net).1
  = fully_connected_layers net
    ++ (layer_entry activation_fn <$> enumerate_from start hidden_units).
Proof.
  revert start net.
  induction hidden_units as [|u us IH]; intros start net.
  - cbn. by rewrite app_nil_r.
  - cbn [enumerate_from]. rewrite for_each_cons. cbn [fst].
    rewrite IH, fmap_cons.
    assert (fully_connected_layers (layer net (start, u)).1
            = fully_connected_layers net ++ [layer_entry activation_fn (start, u)]) as ->
      by (cbn; by shape_cases).
    by rewrite <- (assoc_L (++)).
Qed.

Lemma hidden_layers_keep_probs hidden_units start net :
  dropout_keep_probs (hidden_layers start hidden_units net).1
  = dropout_keep_probs net
    ++ mjoin (replicate (length hidden_units) (layer_keep_probs mode dropout)).
Proof.
  revert start net.
  induction hidden_units as [|u us IH]; intros start net.
  - cbn. by rewrite app_nil_r.
  - cbn [enumerate_from]. rewrite for_each_cons. cbn [fst].
    rewrite IH. cbn [length replicate mjoin list_join].
    assert (dropout_keep_probs (layer net (start, u)).1
            = dropout_keep_probs net ++ layer_keep_probs mode dropout) as ->
      by (unfold layer_keep_probs; cbn; shape_cases; cbn;
          by rewrite ?app_nil_r).
    by rewrite <- (assoc_L (++)).
Qed.

Lemma hidden_layers_chain hidden_units start net :
  fully_connected_inputs (hidden_layers start hidden_units net).1
  ++ [(hidden_layers start hidden_units net).1]
  = fully_connected_inputs net
    ++ net :: layer_outputs (hidden_layers start hidden_units net).2.
Proof.
  revert start net.
  induction hidden_units as [|u us IH]; intros start net; [done|].
  cbn [enumerate_from]. rewrite for_each_cons. cbn [fst snd].
  rewrite IH. unfold layer_outputs. rewrite omap_app.
  fold (layer_outputs (layer net (start, u)).2).
  rewrite hidden_layer_outputs. cbn [app].
  assert (fully_connected_inputs (layer net (start, u)).1
          = fully_connected_inputs net ++ [net]) as ->
    by (cbn; by shape_cases).
  by rewrite <- (assoc_L (++)).
Qed.

Lemma hidden_layers_node_scopes hidden_units start net :
  node_scopes (hidden_layers start hidden_units net).1
  = node_scopes net
    ++ entered_scopes (hidden_layers start hidden_units net).2.
Proof.
  revert start net.
  induction hidden_units as [|u us IH]; intros start net.
  - cbn. by rewrite app_nil_r.
  - cbn [enumerate_from]. rewrite for_each_cons. cbn [fst snd].
    rewrite IH. unfold entered_scopes. rewrite omap_app.
    fold (entered_scopes (layer net (start, u)).2).
    assert (node_scopes (layer net (start, u)).1
            = node_scopes net ++ entered_scopes (layer net (start, u)).2)
      as -> by (cbn; by shape_cases).
    by rewrite <- (assoc_L (++)).
Qed.

Lemma scope_walk_app open log1 log2 :
  scope_walk open (log1 ++ log2)
  = scope_walk open log1 ≫= λ open', scope_walk open' log2.
Proof.
  revert open. induction log1 as [|e log1 IH]; intros open; [done|].
  destruct e, open as [scope'|]; cbn; try done.
  by case_decide.
Qed.

Lemma hidden_layer_scope_walk net item :
  scope_walk None (layer net item).2 = Some None.
Proof. destruct item. cbn. by rewrite decide_True. Qed.

Lemma hidden_layers_scope_walk hidden_units start net :
  scope_walk None (hidden_layers start hidden_units net).2 = Some None.
Proof.
  revert start net.
  induction hidden_units as [|u us IH]; intros start net; [done|].
  cbn [enumerate_from]. rewrite for_each_cons. cbn [snd].
  rewrite scope_walk_app, hidden_layer_scope_walk. cbn. apply IH.
Qed.

Lemma hidden_layers_summary_tags hidden_units start net :
  summary_tags (hidden_layers start hidden_units net).2
  = (hiddenlayer_scope_name <$> seq start (length hidden_units))
    ≫= layer_summary_tags.
Proof.
  revert start net.
  induction hidden_units as [|u us IH]; intros start net; [done|].
  cbn [enumerate_from]. rewrite for_each_cons. cbn [snd].
  unfold summary_tags in *. rewrite omap_app, IH. done.
Qed.

Lemma hidden_layers_scalar_summaries hidden_units start net :
  scalar_summaries (hidden_layers start hidden_units net).2
  = ZeroFraction <$> layer_outputs (hidden_layers start hidden_units net).2.
Proof.
  revert start net.
  induction hidden_units as [|u us IH]; intros start net; [done|].
  cbn [enumerate_from]. rewrite for_each_cons. cbn [snd].
  unfold scalar_summaries, layer_outputs in *.
  rewrite !omap_app, fmap_app, IH. done.
Qed.
Lemma hidden_layers_outputs_length hidden_units start net :
  length (layer_outputs (hidden_layers start hidden_units net).2)
  = length hidden_units.
Proof.
  revert start net.
  induction hidden_units as [|u us IH]; intros start net; [done|].
  cbn [enumerate_from]. rewrite for_each_cons. cbn [snd].
  unfold layer_outputs in *. rewrite omap_app, length_app, IH. done.
Qed.

Lemma hidden_layers_summary_events hidden_units start net :
  summary_events (hidden_layers start hidden_units net).2
  = mjoin
      (zip_with layer_summaries
         (hiddenlayer_scope_name <$> seq start (length hidden_units))
         (layer_outputs (hidden_layers start hidden_units net).2)).
Proof.
  revert start net.
  induction hidden_units as [|u us IH]; intros start net; [done|].
  cbn [enumerate_from]. rewrite for_each_cons. cbn [snd].
  unfold summary_events, layer_outputs in *. rewrite !omap_app, IH. done.
Qed.

Lemma hidden_layers_output
    hidden_units start net layer_id num_hidden_units :
  hidden_units !! layer_id = Some num_hidden_units →
  ∃ inputs,
    (net :: layer_outputs (hidden_layers start hidden_units net).2)
      !! layer_id = Some inputs
    ∧ layer_outputs (hidden_layers start hidden_units net).2 !! layer_id
      = Some (layer inputs ((start + layer_id)%nat, num_hidden_units)).1.
Proof.
  revert start net layer_id.
  induction hidden_units as [|u us IH]; intros start net layer_id Hunit;
    [done|].
  cbn [enumerate_from]. rewrite for_each_cons. cbn [snd].
  unfold layer_outputs. rewrite omap_app.
  fold (layer_outputs (layer net (start, u)).2).
  fold (layer_outputs
          (hidden_layers (S start) us (layer net (start, u)).1).2).
  rewrite hidden_layer_outputs. cbn [app].
  destruct layer_id as [|j].
  - injection Hunit as <-. exists net. rewrite Nat.add_0_r. done.
  - cbn in Hunit.
    destruct (IH (S start) (layer net (start, u)).1 j Hunit)
      as (inputs & Hinputs & Hout).
    exists inputs. cbn [lookup list_lookup] in *.
    replace (start + S j)%nat with (S start + j)%nat by lia. done.
Qed.
End hidden_layers_shape.

(** ** The model function, unfolded once *)

Section model.
Variables (features : Features) (labels : option FeatureTensor)
  (mode : ModeKeys) (params : Params.t) (config : option RunConfig).

#[local] Abbreviation hidden := (hidden_net features mode params config).
#[local] Abbreviation logits := (logits_net features mode params config).

Lemma dnn_model_fn_ops :
  (_dnn_model_fn features labels mode params config).1
  = {| head_lib.head := Params.head params;
       head_lib.features := _get_feature_dict features;
       head_lib.labels := labels;
       head_lib.mode := mode;
       head_lib.train_op_fn :=
         _train_op_fn
           (py_or (dict_get (Params.optimizer params) PyNone)
              (PyStr "Adagrad"))
           (dict_get (Params.embedding_lr_multipliers params) (Some []))
           (dict_get (Params.gradient_clip_norm params) None);
       head_lib.logits := logits |}.
Proof. reflexivity. Qed.

Lemma dnn_model_fn_log :
  (_dnn_model_fn features labels mode params config).2
  = [EnterVariableScope (input_scope config)
       (OfFeature <$> (map_to_list (_get_feature_dict features)).*2);
     ExitVariableScope (input_scope config)]
    ++ hidden.2
    ++ [EnterVariableScope (hidden_scope config "dnn/logits")
          [OfTensor hidden.1];
        ExitVariableScope (hidden_scope config "dnn/logits");
        SummaryScalar "dnn/logits_fraction_of_zero_values"
          (ZeroFraction logits);
        SummaryHistogram "dnn/logits_activation" logits].
Proof. reflexivity. Qed.

Lemma dnn_model_fn_layer_outputs :
  layer_outputs (_dnn_model_fn features labels mode params config).2
  = layer_outputs hidden.2 ++ [logits].
Proof.
  rewrite dnn_model_fn_log. unfold layer_outputs.
  by rewrite !omap_app.
Qed.

Lemma dnn_model_fn_entered_scopes :
  entered_scopes (_dnn_model_fn features labels mode params config).2
  = input_scope config
    :: ((λ layer_id, hidden_scope config (hiddenlayer_scope_name layer_id))
        <$> seq 0 (length (Params.hidden_units params)))
    ++ [hidden_scope config "dnn/logits"].
Proof.
  rewrite dnn_model_fn_log. unfold entered_scopes.
  rewrite !omap_app. fold (entered_scopes hidden.2).
  unfold hidden_net, enumerate. by rewrite hidden_layers_entered.
Qed.

Lemma dnn_model_fn_scopes :
  fully_connected_scopes
    (head_lib.logits (_dnn_model_fn features labels mode params config).1)
  = (hiddenlayer_scope_name <$> seq 0 (length (Params.hidden_units params)))
    ++ ["dnn/logits"].
Proof.
  rewrite dnn_model_fn_ops. cbn [head_lib.logits].
  unfold logits_net. cbn [fully_connected_scopes].
  unfold hidden_net, enumerate. by rewrite hidden_layers_scopes.
Qed.
Lemma dnn_model_fn_inputs :
  fully_connected_inputs
    (head_lib.logits (_dnn_model_fn features labels mode params config).1)
  = input_net features params config :: layer_outputs hidden.2.
Proof.
  rewrite dnn_model_fn_ops. cbn [head_lib.logits].
  unfold logits_net. cbn [fully_connected_inputs].
  unfold hidden_net, enumerate. by rewrite hidden_layers_chain.
Qed.
End model.

(** ** Dropout *)

Lemma for_each_ext {A S} (f g : S → A → GraphM S) xs acc :
  (∀ acc x, f acc x = g acc x) → for_each xs acc f = for_each xs acc g.
Proof.
  intros Hfg. revert acc.
  induction xs as [|x xs IH]; intros acc; [done|].
  rewrite !for_each_cons, Hfg, !IH. done.
Qed.

Lemma hidden_layer_dropout_inert mode activation_fn rate partitioner net item :
  mode ≠ model_fn.TRAIN →
  hidden_layer mode activation_fn rate partitioner net item
  = hidden_layer mode activation_fn None partitioner net item.
Proof.
  intros Hmode. destruct item as [layer_id num_hidden_units].
  unfold hidden_layer. destruct rate as [rate|]; [|done].
  by destruct (decide (mode = model_fn.TRAIN)).
Qed.

Lemma hidden_net_dropout_inert features mode params config configured :
  mode ≠ model_fn.TRAIN →
  hidden_net features mode (Params.set_dropout configured params) config
  = hidden_net features mode (Params.set_dropout None params) config.
Proof.
  intros Hmode. unfold hidden_net. cbn.
  apply for_each_ext. intros acc x.
  by rewrite hidden_layer_dropout_inert.
Qed.

(** C1.  In [_dnn_model_fn] the output of a hidden layer, the tensor that
    the next layer (or, after the last hidden layer, the logits layer)
    consumes and that the layer's summaries show, is [layers.dropout]
    applied to the layer's fully connected transform exactly when the mode
    is [TRAIN] and the configured dropout rate is not [None], and is the
    fully connected transform itself otherwise; in mode [EVAL] or
    [PREDICT] the result and the graph built are the same for every dropout
    configuration as with no dropout configured. *)
Theorem dropout_only_when_training features labels mode params config :
  (∀ layer_id,
     (layer_id < length (Params.hidden_units params))%nat →
     ∃ num_hidden_units inputs out,
       Params.hidden_units params !! layer_id = Some num_hidden_units
       ∧ fully_connected_inputs
           (head_lib.logits
              (_dnn_model_fn features labels mode params config).1)
           !! layer_id = Some inputs
       ∧ fully_connected_inputs
           (head_lib.logits
              (_dnn_model_fn features labels mode params config).1)
           !! S layer_id = Some out
       ∧ layer_outputs (_dnn_model_fn features labels mode params config).2
           !! layer_id = Some out
       ∧ (let transform :=
            FullyConnected inputs num_hidden_units
              (dict_get (Params.activation_fn params) None) ["dnn"]
              (hidden_scope config ("dnn/hiddenlayer_" +:+ fmt_d layer_id))
          in
          out = match dict_get (Params.dropout params) None with
                | Some rate =>
                    if decide (mode = model_fn.TRAIN)
                    then Dropout transform (1 - rate)%float
                    else transform
                | None => transform
                end)
       ∧ (is_dropout out = true
          ↔ mode = model_fn.TRAIN
            ∧ dict_get (Params.dropout params) None ≠ None))
  ∧ (mode = model_fn.EVAL ∨ mode = model_fn.PREDICT →
     ∀ configured,
       _dnn_model_fn features labels mode
         (Params.set_dropout configured params) config
       = _dnn_model_fn features labels mode
           (Params.set_dropout None params) config).
Proof.
  split.
  - intros layer_id Hlt.
    destruct (lookup_lt_is_Some_2 _ _ Hlt) as [num_hidden_units Hunit].
    rewrite dnn_model_fn_layer_outputs, dnn_model_fn_inputs.
    unfold hidden_net, enumerate.
    destruct (hidden_layers_output mode
                (dict_get (Params.activation_fn params) None)
                (dict_get (Params.dropout params) None)
                {| max_partitions := shard_count config;
                   min_slice_size := None |}
                (Params.hidden_units params) 0
                (input_net features params config) layer_id
                num_hidden_units Hunit)
      as (inputs & Hinputs & Hout).
    exists num_hidden_units, inputs. eexists.
    split; [done|]. split; [exact Hinputs|]. split; [exact Hout|].
    split; [by apply lookup_app_l_Some|].
    cbn.
    destruct (dict_get (Params.dropout params) None) as [rate|];
      [destruct (decide (mode = model_fn.TRAIN))|]; cbn.
    + split; [done|]. split; [eauto | done].
    + split; [done|]. split; [done | by intros [? _]].
    + split; [done|]. split; [done | by intros [_ ?]].
  - intros Hmode configured.
    assert (mode ≠ model_fn.TRAIN) as Hne
      by (destruct Hmode; by subst).
    apply injective_projections.
    + rewrite !dnn_model_fn_ops. unfold logits_net.
      by rewrite (hidden_net_dropout_inert _ _ _ _ configured Hne).
    + rewrite !dnn_model_fn_log. unfold logits_net.
      by rewrite (hidden_net_dropout_inert _ _ _ _ configured Hne).
Qed.

Lemma dropout_only_when_training_witness :
  (∃ num_hidden_units inputs out,
     Params.hidden_units example_params !! 1%nat = Some num_hidden_units
     ∧ fully_connected_inputs
         (head_lib.logits
            (_dnn_model_fn example_features None model_fn.TRAIN
               example_params None).1)
         !! 1%nat = Some inputs
     ∧ fully_connected_inputs
         (head_lib.logits
            (_dnn_model_fn example_features None model_fn.TRAIN
               example_params None).1)
         !! 2%nat = Some out
     ∧ layer_outputs
         (_dnn_model_fn example_features None model_fn.TRAIN example_params
            None).2 !! 1%nat = Some out
     ∧ (let transform :=
          FullyConnected inputs num_hidden_units
            (dict_get (Params.activation_fn example_params) None) ["dnn"]
            (hidden_scope None ("dnn/hiddenlayer_" +:+ fmt_d 1))
        in
        out = match dict_get (Params.dropout example_params) None with
              | Some rate =>
                  if decide (model_fn.TRAIN = model_fn.TRAIN)
                  then Dropout transform (1 - rate)%float
                  else transform
              | None => transform
              end)
     ∧ (is_dropout out = true
        ↔ model_fn.TRAIN = model_fn.TRAIN
          ∧ dict_get (Params.dropout example_params) None ≠ None))
  ∧ _dnn_model_fn example_features None model_fn.EVAL
      (Params.set_dropout (Some (Some 0.5%float)) example_params) None
    = _dnn_model_fn example_features None model_fn.EVAL
        (Params.set_dropout None example_params) None.
Proof.
  split.
  - apply (dropout_only_when_training example_features None model_fn.TRAIN
             example_params None).
    cbn. lia.
  - apply (dropout_only_when_training example_features None model_fn.EVAL
             example_params None).
    left. reflexivity.
Defined.

(** ** Feature normalisation *)

(** C5.  A [features] argument that is not a dict becomes the one-entry
    dict whose key is the empty string and whose value is the tensor; a
    dict is passed through; and that dict is what [_dnn_model_fn] feeds
    both to the input layer and to the head. *)
Theorem single_tensor_keyed_by_empty_string :
  (∀ t,
     _get_feature_dict (FeaturesTensor t) = {[ "" := t ]}
     ∧ map_to_list (_get_feature_dict (FeaturesTensor t)) = [("", t)]
     ∧ size (_get_feature_dict (FeaturesTensor t)) = 1%nat
     ∧ _get_feature_dict (FeaturesTensor t) !! "" = Some t)
  ∧ (∀ d, _get_feature_dict (FeaturesDict d) = d)
  ∧ (∀ features labels mode params config,
       let ops := (_dnn_model_fn features labels mode params config).1 in
       head_lib.features ops = _get_feature_dict features
       ∧ graph_input (head_lib.logits ops) = _get_feature_dict features).
Proof.
  split; [|split].
  - intros t. cbn [_get_feature_dict].
    split; [done|]. split; [apply map_to_list_singleton|].
    split; [apply map_size_singleton | apply lookup_singleton_eq].
  - done.
  - intros features labels mode params config ops. subst ops.
    rewrite dnn_model_fn_ops. cbn [head_lib.features head_lib.logits].
    split; [done|].
    unfold logits_net. cbn [graph_input].
    unfold hidden_net, enumerate. by rewrite hidden_layers_graph_input.
Qed.

(** ** Partitioning *)

(** C8.  The partitioners of the scopes [_dnn_model_fn] opens depend on
    the runtime config alone: their maximum shard count is
    [config.num_ps_replicas], or 0 without a config; the input layer's
    partitioner has a minimum slice size of 64MiB, and those of the hidden
    layers and of the logits layer are given none. *)
Theorem partitioning_hint_from_config features labels mode params config :
  let shards :=
    match config with
    | Some config => num_ps_replicas config
    | None => 0
    end in
  entered_scopes (_dnn_model_fn features labels mode params config).2
  = {| scope_name := "dnn/input_from_feature_columns";
       scope_partitioner :=
         {| max_partitions := shards;
            min_slice_size := Some (64 * 1024 * 1024) |} |}
    :: ((λ layer_id : nat,
           {| scope_name := "dnn/hiddenlayer_" +:+ fmt_d layer_id;
              scope_partitioner :=
                {| max_partitions := shards; min_slice_size := None |} |})
        <$> seq 0 (length (Params.hidden_units params)))
    ++ [ {| scope_name := "dnn/logits";
            scope_partitioner :=
              {| max_partitions := shards; min_slice_size := None |} |} ].
Proof. intros shards. by rewrite dnn_model_fn_entered_scopes. Qed.

(** ** The training op *)

Lemma get_optimizer_not_callable v :
  callable v = false → _get_optimizer v = v.
Proof. by destruct v. Qed.


Lemma py_or_falsy a b : truthy a = false → py_or a b = b.
Proof. unfold py_or. by intros ->. Qed.

(** C2.  The training op the head is handed is [optimize_loss] applied to
    the configured optimizer: an optimizer instance or a non-empty
    optimizer name as it is, the result of calling it for a zero-argument
    callable, and [Adagrad] by name when the optimizer is [None], absent or
    otherwise false; always at the learning rate 0.05, with
    [clip_gradients] the configured [gradient_clip_norm] and with the
    gradient multipliers extracted from the configured
    [embedding_lr_multipliers]. *)
Theorem train_op_applies_configured_optimizer
    features labels mode params config loss :
  let configured := dict_get (Params.optimizer params) PyNone in
  let op :=
    head_lib.train_op_fn
      (_dnn_model_fn features labels mode params config).1 loss in
  optimizers.loss op = loss
  ∧ optimizers.learning_rate op = 0.05%float
  ∧ optimizers.clip_gradients op
    = dict_get (Params.gradient_clip_norm params) None
  ∧ optimizers.gradient_multipliers op
    = dnn_linear_combined._extract_embedding_lr_multipliers
        (dict_get (Params.embedding_lr_multipliers params) (Some []))
        "dnn" "dnn/input_from_feature_columns"
  ∧ optimizers.name op = "dnn"
  ∧ optimizers.summaries op = []
  ∧ optimizers.optimizer op
    = _get_optimizer (py_or configured (PyStr "Adagrad"))
  ∧ optimizers.optimizer op
    = match configured with
      | PyCallable f => f tt
      | PyNone => PyStr "Adagrad"
      | PyBool b => if b then PyBool true else PyStr "Adagrad"
      | PyInt n => if decide (n = 0) then PyStr "Adagrad" else PyInt n
      | PyFloat x => if PrimFloat.eqb x 0 then PyStr "Adagrad" else PyFloat x
      | PyStr s => if decide (s = "") then PyStr "Adagrad" else PyStr s
      | PyOptimizer o => PyOptimizer o
      end
  ∧ (configured = PyNone → optimizers.optimizer op = PyStr "Adagrad")
  ∧ (∀ o, configured = PyOptimizer o →
          optimizers.optimizer op = PyOptimizer o)
  ∧ (∀ s, configured = PyStr s → s ≠ "" →
          optimizers.optimizer op = PyStr s)
  ∧ (∀ f, configured = PyCallable f → optimizers.optimizer op = f tt).
Proof.
  intros configured op. subst op. rewrite dnn_model_fn_ops.
  cbn [head_lib.train_op_fn]. fold configured.
  repeat (split; [reflexivity|]).
  assert (_get_optimizer (py_or configured (PyStr "Adagrad"))
          = match configured with
            | PyCallable f => f tt
            | PyNone => PyStr "Adagrad"
            | PyBool b => if b then PyBool true else PyStr "Adagrad"
            | PyInt n => if decide (n = 0) then PyStr "Adagrad" else PyInt n
            | PyFloat x =>
                if PrimFloat.eqb x 0 then PyStr "Adagrad" else PyFloat x
            | PyStr s => if decide (s = "") then PyStr "Adagrad" else PyStr s
            | PyOptimizer o => PyOptimizer o
            end) as Hcases.
  { destruct configured as [|[|]|n|x|s|o|f]; cbn; try done.
    - destruct (decide (n = 0)) as [->|Hn]; [done|].
      unfold py_or. cbn. by rewrite (proj2 (Z.eqb_neq n 0) Hn).
    - unfold py_or. cbn. by destruct (PrimFloat.eqb x 0).
    - destruct (decide (s = "")) as [->|Hs]; [done|].
      unfold py_or. cbn. by rewrite (proj2 (String.eqb_neq s "") Hs). }
  cbn [optimizers.optimizer _train_op_fn].
  split; [exact Hcases|].
  rewrite Hcases.
  split; [by intros ->|]. split; [by intros o ->|].
  split; [|by intros f ->].
  intros s -> Hs. by rewrite decide_False.
Qed.

Lemma train_op_applies_configured_optimizer_witness :
  optimizers.optimizer (example_train_op (Some PyNone)) = PyStr "Adagrad"
  ∧ optimizers.optimizer
      (example_train_op (Some (PyOptimizer example_optimizer)))
    = PyOptimizer example_optimizer
  ∧ optimizers.optimizer (example_train_op (Some (PyStr "SGD")))
    = PyStr "SGD"
  ∧ optimizers.optimizer (example_train_op (Some (PyCallable sgd_factory)))
    = sgd_factory tt.
Proof.
  pose proof (λ configured,
                train_op_applies_configured_optimizer example_features None
                  model_fn.TRAIN
                  (Params.set_optimizer (Some configured) example_params)
                  None example_loss) as Happlies.
  split; [|split; [|split]].
  - destruct (Happlies PyNone)
      as (_ & _ & _ & _ & _ & _ & _ & _ & Hnone & _).
    apply Hnone. reflexivity.
  - destruct (Happlies (PyOptimizer example_optimizer))
      as (_ & _ & _ & _ & _ & _ & _ & _ & _ & Hinstance & _).
    apply (Hinstance example_optimizer). reflexivity.
  - destruct (Happlies (PyStr "SGD"))
      as (_ & _ & _ & _ & _ & _ & _ & _ & _ & _ & Hname & _).
    apply (Hname "SGD"); [reflexivity | discriminate].
  - destruct (Happlies (PyCallable sgd_factory))
      as (_ & _ & _ & _ & _ & _ & _ & _ & _ & _ & _ & Hfactory).
    apply (Hfactory sgd_factory). reflexivity.
Defined.

(** C10.  Whenever the [optimizer] hyperparameter is false as a truth
    value (the key absent, [None], the empty string, 0, ...) the model
    function proceeds exactly as if ["Adagrad"] had been configured. *)
Theorem falsy_optimizer_selects_adagrad
    features labels mode params config loss :
  truthy (dict_get (Params.optimizer params) PyNone) = false →
  optimizers.optimizer
    (head_lib.train_op_fn
       (_dnn_model_fn features labels mode params config).1 loss)
  = PyStr "Adagrad"
  ∧ _dnn_model_fn features labels mode params config
    = _dnn_model_fn features labels mode
        (Params.set_optimizer (Some (PyStr "Adagrad")) params) config.
Proof.
  intros Hfalsy. split.
  - rewrite dnn_model_fn_ops. cbn [head_lib.train_op_fn].
    by rewrite (py_or_falsy _ _ Hfalsy).
  - apply injective_projections.
    + rewrite !dnn_model_fn_ops. by rewrite (py_or_falsy _ _ Hfalsy).
    + by rewrite !dnn_model_fn_log.
Qed.

Lemma falsy_optimizer_selects_adagrad_witness :
  optimizers.optimizer (example_train_op None) = PyStr "Adagrad"
  ∧ optimizers.optimizer (example_train_op (Some PyNone)) = PyStr "Adagrad"
  ∧ optimizers.optimizer (example_train_op (Some (PyStr "")))
    = PyStr "Adagrad"
  ∧ optimizers.optimizer (example_train_op (Some (PyInt 0)))
    = PyStr "Adagrad".
Proof.
  pose proof (λ configured,
                falsy_optimizer_selects_adagrad example_features None
                  model_fn.TRAIN
                  (Params.set_optimizer configured example_params) None
                  example_loss) as Hfalsy.
  split; [|split; [|split]].
  - apply (Hfalsy None). reflexivity.
  - apply (Hfalsy (Some PyNone)). reflexivity.
  - apply (Hfalsy (Some (PyStr ""))). reflexivity.
  - apply (Hfalsy (Some (PyInt 0))). reflexivity.
Defined.

(** ** Optimizer factories *)


(** A factory that returns [None]: [None] reaches [optimize_loss] when the
    factory is passed, ["Adagrad"] when [None] is. *)
Lemma factory_of_none_not_equivalent :
  ¬ factory_equivalent (λ _, PyNone).
Proof.
  intros Heq.
  specialize (Heq example_features None model_fn.TRAIN example_params None).
  apply (f_equal (λ r, optimizers.optimizer
                         (head_lib.train_op_fn r.1 example_loss))) in Heq.
  discriminate Heq.
Qed.




(** ** Construction of a classifier *)

(** C3.  With [n_classes < 2] the head constructor raises, the failure
    leaves [DNNClassifier.__init__] as it is, and nothing a client would do
    with the classifier afterwards ([fit] and its training steps included)
    is run. *)
Theorem n_classes_below_two_fails_at_construction
    required_logits_dimension hidden_units feature_columns model_dir
    n_classes weight_column_name optimizer activation_fn dropout
    gradient_clip_norm enable_centered_bias config feature_engineering_fn
    embedding_lr_multipliers :
  n_classes < 2 →
  ∃ msg,
    head_lib._multi_class_head required_logits_dimension n_classes
      weight_column_name enable_centered_bias = Raise (ValueError msg)
    ∧ DNNClassifier.__init__ required_logits_dimension hidden_units
        feature_columns model_dir n_classes weight_column_name optimizer
        activation_fn dropout gradient_clip_norm enable_centered_bias config
        feature_engineering_fn embedding_lr_multipliers
      = Raise (ValueError msg)
    ∧ ∀ A (client : DNNClassifier.t → Exc A),
        exc_bind
          (DNNClassifier.__init__ required_logits_dimension hidden_units
             feature_columns model_dir n_classes weight_column_name optimizer
             activation_fn dropout gradient_clip_norm enable_centered_bias
             config feature_engineering_fn embedding_lr_multipliers)
          client
        = Raise (ValueError msg).
Proof.
  intros Hlt. eexists.
  unfold DNNClassifier.__init__, head_lib._multi_class_head.
  destruct (decide (n_classes < 2)) as [_|Hge]; [|lia].
  cbn. by repeat split.
Qed.

Lemma n_classes_below_two_fails_at_construction_witness :
  ∃ msg, example_classifier 1 = Raise (ValueError msg).
Proof.
  destruct (n_classes_below_two_fails_at_construction
              example_logits_dimension [4; 2] [ {| column_name := "age" |} ]
              None 1 None PyNone (Some {| activation_name := "relu" |})
              None None true None None None)
    as (msg & _ & Hinit & _); [lia|].
  exists msg. exact Hinit.
Defined.

(** ** Variable names *)

Lemma fmap_enumerate_from {A B} (g : nat → B) (l : list A) start :
  (λ item : nat * A, g item.1) <$> enumerate_from start l
  = g <$> seq start (length l).
Proof.
  revert start. induction l as [|x l IH]; intros start; [done|].
  cbn. by rewrite IH.
Qed.

Lemma hiddenlayer_scope_name_inj : Inj (=) (=) hiddenlayer_scope_name.
Proof.
  intros i j Heq. unfold hiddenlayer_scope_name, fmt_d in Heq.
  apply (inj (String.append "dnn/hiddenlayer_")) in Heq.
  by apply (inj pretty) in Heq.
Qed.

(** C6.  In the graph [_dnn_model_fn] builds for a classifier, the fully
    connected layers sit, in order, in the scopes [dnn/hiddenlayer_<i>] for
    every index [i] into [hidden_units] and then [dnn/logits]; [weights_]
    reads from the classifier's estimator the variable [<scope>/weights] of
    each of these scopes in that order, and [bias_] the variable
    [<scope>/biases] of each, followed by [centered_bias_weight] when
    [enable_centered_bias] was set. *)
Theorem variables_named_by_layer
    required_logits_dimension hidden_units feature_columns model_dir
    n_classes weight_column_name optimizer activation_fn dropout
    gradient_clip_norm enable_centered_bias config feature_engineering_fn
    embedding_lr_multipliers self features labels mode run_config :
  DNNClassifier.__init__ required_logits_dimension hidden_units
    feature_columns model_dir n_classes weight_column_name optimizer
    activation_fn dropout gradient_clip_norm enable_centered_bias config
    feature_engineering_fn embedding_lr_multipliers
  = Return self →
  let est := DNNClassifier._estimator self in
  let scopes :=
    fully_connected_scopes
      (head_lib.logits
         (estimator.model_fn est features labels mode (estimator.params est)
            run_config).1) in
  scopes
  = ((λ layer_id : nat, "dnn/hiddenlayer_" +:+ fmt_d layer_id)
     <$> seq 0 (length hidden_units))
    ++ ["dnn/logits"]
  ∧ DNNClassifier.weights_ self
    = (λ scope, estimator.get_variable_value est (scope +:+ "/weights"))
      <$> scopes
  ∧ DNNClassifier.bias_ self
    = ((λ scope, estimator.get_variable_value est (scope +:+ "/biases"))
       <$> scopes)
      ++ (if enable_centered_bias
          then [estimator.get_variable_value est "centered_bias_weight"]
          else [])
  ∧ DNNClassifier.weights_ self
    = (λ scope,
         DNNClassifier.get_variable_value self (layers.weights_name scope))
      <$> scopes
  ∧ DNNClassifier.bias_ self
    = ((λ scope,
          DNNClassifier.get_variable_value self (layers.biases_name scope))
       <$> scopes)
      ++ (if enable_centered_bias
          then [DNNClassifier.get_variable_value self "centered_bias_weight"]
          else []).
Proof.
  unfold DNNClassifier.__init__, head_lib._multi_class_head.
  destruct (decide (n_classes < 2)) as [|Hge]; [done|].
  cbn [exc_bind]. intros [= <-].
  cbn [DNNClassifier._estimator estimator.model_fn estimator.params].
  rewrite dnn_model_fn_scopes. cbn [Params.hidden_units].
  split; [done|].
  set (self := {| DNNClassifier._hidden_units := hidden_units |}).
  set (scopes := (hiddenlayer_scope_name <$> seq 0 (length hidden_units))
                 ++ ["dnn/logits"]).
  assert (DNNClassifier.weights_ self
          = (λ scope,
               estimator.get_variable_value (DNNClassifier._estimator self)
                 (scope +:+ "/weights")) <$> scopes) as Hweights.
  { unfold DNNClassifier.weights_, enumerate, scopes.
    rewrite (fmap_enumerate_from
               (λ i, DNNClassifier.get_variable_value self
                       ("dnn/hiddenlayer_" +:+ fmt_d i +:+ "/weights"))).
    by rewrite !fmap_app, <- !list_fmap_compose. }
  assert (DNNClassifier.bias_ self
          = ((λ scope,
                estimator.get_variable_value (DNNClassifier._estimator self)
                  (scope +:+ "/biases")) <$> scopes)
            ++ (if enable_centered_bias
                then [estimator.get_variable_value
                        (DNNClassifier._estimator self)
                        "centered_bias_weight"]
                else [])) as Hbias.
  { unfold DNNClassifier.bias_, enumerate, scopes.
    rewrite (fmap_enumerate_from
               (λ i, DNNClassifier.get_variable_value self
                       ("dnn/hiddenlayer_" +:+ fmt_d i +:+ "/biases"))).
    rewrite !fmap_app, <- !list_fmap_compose, <- (assoc_L (++)).
    subst self. by destruct enable_centered_bias. }
  split; [exact Hweights|]. split; [exact Hbias|].
  split; [exact Hweights | exact Hbias].
Qed.

Lemma variables_named_by_layer_witness :
  ∃ self,
    example_classifier 3 = Return self
    ∧ DNNClassifier.weights_ self
      = [estimator.get_variable_value (DNNClassifier._estimator self)
           "dnn/hiddenlayer_0/weights";
         estimator.get_variable_value (DNNClassifier._estimator self)
           "dnn/hiddenlayer_1/weights";
         estimator.get_variable_value (DNNClassifier._estimator self)
           "dnn/logits/weights"]
    ∧ DNNClassifier.bias_ self
      = [estimator.get_variable_value (DNNClassifier._estimator self)
           "dnn/hiddenlayer_0/biases";
         estimator.get_variable_value (DNNClassifier._estimator self)
           "dnn/hiddenlayer_1/biases";
         estimator.get_variable_value (DNNClassifier._estimator self)
           "dnn/logits/biases";
         estimator.get_variable_value (DNNClassifier._estimator self)
           "centered_bias_weight"].
Proof.
  eexists. split; [reflexivity|].
  destruct (variables_named_by_layer example_logits_dimension [4; 2]
              [ {| column_name := "age" |} ] None 3 None PyNone
              (Some {| activation_name := "relu" |}) None None true None
              None None _ example_features None model_fn.TRAIN None eq_refl)
    as (Hscopes & Hweights & Hbias & _).
  rewrite Hweights, Hbias, Hscopes. split; reflexivity.
Defined.

(** ** Metrics of the regressor *)

Section dict_facts.
Context {K V : Type} `{EqDecision K}.
Implicit Types (d : list (K * V)) (k : K) (v : V).

Lemma dict_setitem_fresh k v d : k ∉ d.*1 → dict_setitem k v d = d ++ [(k, v)].
Proof.
  induction d as [|[k' v'] d IH]; [done|].
  cbn. intros Hnotin. apply not_elem_of_cons in Hnotin as [Hne Hnotin].
  destruct (decide (k' = k)); [congruence|]. by rewrite IH.
Qed.

Lemma dict_lookup_elem_of k v d :
  NoDup d.*1 → (k, v) ∈ d → dict_lookup k d = Some v.
Proof.
  induction d as [|[k' v'] d IH]; [by intros _ ?%elem_of_nil|].
  cbn. intros [Hnotin Hnodup]%NoDup_cons Hin.
  apply elem_of_cons in Hin as [[= <- <-]|Hin].
  - by rewrite decide_True.
  - destruct (decide (k' = k)) as [->|]; [|auto].
    exfalso. apply Hnotin. apply list_elem_of_fmap. by exists (k, v).
Qed.
End dict_facts.

Lemma remap_metric_setitem custom_metrics item :
  DNNRegressor.remap_metric custom_metrics item
  = dict_setitem (remapped_key item) item.2 custom_metrics.
Proof. by destruct item as [[name|name prediction] [spec|fn]]. Qed.

Lemma remap_metrics_distinct items custom_metrics :
  NoDup (custom_metrics.*1 ++ (remapped_key <$> items)) →
  foldl DNNRegressor.remap_metric custom_metrics items
  = custom_metrics ++ (remapped_item <$> items).
Proof.
  revert custom_metrics.
  induction items as [|item items IH]; intros custom_metrics Hnodup.
  - cbn. by rewrite app_nil_r.
  - cbn [foldl fmap list_fmap] in *.
    apply NoDup_app in Hnodup as (Hacc & Hdisjoint & Hitems).
    apply NoDup_cons in Hitems as [Hitem Hitems].
    assert (remapped_key item ∉ custom_metrics.*1) as Hfresh.
    { intros Hin. apply (Hdisjoint _ Hin). by left. }
    rewrite remap_metric_setitem, dict_setitem_fresh by done.
    rewrite IH.
    + by rewrite <- app_assoc.
    + rewrite fmap_app. cbn. rewrite <- app_assoc. cbn.
      apply NoDup_app. split; [done|]. split.
      * intros k Hin Hin'. apply (Hdisjoint k Hin). done.
      * by apply NoDup_cons.
Qed.

(** A bare name and the tuple key it is remapped to in one [metrics] dict:
    the second assignment overwrites the first, and the forwarded mapping
    holds one entry for the two, whichever way the dict is iterated. *)
Lemma colliding_metric_keys_not_all_remapped :
  DNNRegressor.custom_metrics_of (Some colliding_metrics)
  = [(KeyTuple "mse" prediction_key.SCORES, MetricFn (Obj "custom_mse"))]
  ∧ ¬ remaps_every_entry colliding_metrics
        (DNNRegressor.custom_metrics_of (Some colliding_metrics))
  ∧ ¬ remaps_every_entry (reverse colliding_metrics)
        (DNNRegressor.custom_metrics_of (Some (reverse colliding_metrics))).
Proof.
  split; [reflexivity|]. split; intros Hall.
  - specialize (Hall (KeyName "mse")
                  (MetricFn (Obj "streaming_mean_squared_error"))).
    discriminate Hall. by left.
  - specialize (Hall (KeyTuple "mse" prediction_key.SCORES)
                  (MetricFn (Obj "custom_mse"))).
    discriminate Hall. by left.
Qed.

(** C7, amended.  [DNNRegressor.evaluate] delegates to the estimator with
    its other arguments unchanged and a rewritten metrics mapping.  With no
    metrics ([None] or an empty dict) the mapping forwarded is empty.
    Otherwise, provided the remapped keys are pairwise distinct, it holds
    exactly the entries of [metrics], in order: under the pair (key,
    [SCORES]) when the value is not a [MetricSpec] and the key not a
    tuple, under the original key otherwise. *)
Theorem evaluate_remaps_bare_metric_names
    self x y input_fn feed_fn batch_size steps metrics name checkpoint_path :
  ∃ forwarded,
    DNNRegressor.evaluate self x y input_fn feed_fn batch_size steps metrics
      name checkpoint_path
    = estimator.evaluate (DNNRegressor._estimator self) x y input_fn feed_fn
        batch_size steps (Some forwarded) name checkpoint_path
    ∧ (metrics = None ∨ metrics = Some [] → forwarded = [])
    ∧ (∀ items,
         metrics = Some items →
         NoDup (remapped_key <$> items) →
         forwarded = remapped_item <$> items
         ∧ remaps_every_entry items forwarded).
Proof.
  exists (DNNRegressor.custom_metrics_of metrics).
  split; [reflexivity|]. split.
  - by intros [->| ->].
  - intros items -> Hnodup.
    assert (DNNRegressor.custom_metrics_of (Some items)
            = remapped_item <$> items) as ->.
    { destruct items as [|item items]; [done|].
      unfold DNNRegressor.custom_metrics_of.
      by rewrite remap_metrics_distinct. }
    split; [done|]. intros key metric Hin.
    apply dict_lookup_elem_of.
    + by rewrite <- list_fmap_compose.
    + apply list_elem_of_fmap. by exists (key, metric).
Qed.

Lemma evaluate_remaps_bare_metric_names_witness :
  DNNRegressor.evaluate example_regressor None None None None None None
    (Some example_metrics) None None
  = estimator.evaluate (DNNRegressor._estimator example_regressor) None None
      None None None None
      (Some
         [(KeyTuple "mse" prediction_key.SCORES,
           MetricFn (Obj "streaming_mean_squared_error"));
          (KeyName "mae", MetricSpec (Obj "mean_absolute_error_spec"));
          (KeyTuple "rmse" prediction_key.SCORES,
           MetricFn (Obj "streaming_root_mean_squared_error"))])
      None None
  ∧ DNNRegressor.evaluate example_regressor None None None None None None
      None None None
    = estimator.evaluate (DNNRegressor._estimator example_regressor) None
        None None None None None (Some []) None None.
Proof.
  split.
  - destruct (evaluate_remaps_bare_metric_names example_regressor None None
                None None None None (Some example_metrics) None None)
      as (forwarded & Hcall & _ & Hitems).
    destruct (Hitems example_metrics eq_refl) as [-> _].
    + apply (bool_decide_unpack _). vm_compute. exact I.
    + exact Hcall.
  - destruct (evaluate_remaps_bare_metric_names example_regressor None None
                None None None None None None None)
      as (forwarded & Hcall & Hnone & _).
    rewrite (Hnone (or_introl eq_refl)) in Hcall. exact Hcall.
Defined.

(** ** Predictions *)

(** [predict] and [predict_proba] ask the one estimator of the classifier,
    and so the one head, for the [CLASSES] and for the [PROBABILITIES]
    prediction; the numbers behind the two keys are the head's. *)
Lemma classifier_predictions_from_one_estimator
    self x input_fn batch_size as_iterable :
  let classes :=
    estimator.predict (DNNClassifier._estimator self) x input_fn batch_size
      [prediction_key.CLASSES] as_iterable in
  let probabilities :=
    estimator.predict (DNNClassifier._estimator self) x input_fn batch_size
      [prediction_key.PROBABILITIES] as_iterable in
  DNNClassifier.predict self x input_fn batch_size as_iterable
  = (if as_iterable then EachItem classes prediction_key.CLASSES
     else Reshape (GetItem classes prediction_key.CLASSES) [-1])
  ∧ DNNClassifier.predict_proba self x input_fn batch_size as_iterable
    = (if as_iterable then EachItem probabilities prediction_key.PROBABILITIES
       else GetItem probabilities prediction_key.PROBABILITIES).
Proof. done. Qed.

(** * Further properties of the module *)

(** ** Names built from a scope *)

#[local] Abbreviation chars := Stdlib.Strings.String.list_ascii_of_string.

Lemma chars_app s1 s2 : chars (s1 +:+ s2) = chars s1 ++ chars s2.
Proof.
  induction s1 as [|a s1 IH]; [done|].
  change (chars (String a (s1 +:+ s2)) = a :: (chars s1 ++ chars s2)).
  cbn. by rewrite IH.
Qed.

Lemma reversed_name scope suffix :
  reverse (chars (scope +:+ suffix))
  = reverse (chars suffix) ++ reverse (chars scope).
Proof. by rewrite chars_app, reverse_app. Qed.

Lemma name_suffix_inj suffix : Inj (=) (=) (λ scope, scope +:+ suffix).
Proof.
  intros s1 s2 Heq.
  apply (f_equal chars) in Heq.
  rewrite !chars_app in Heq.
  apply (inj (.++ _)) in Heq.
  rewrite <- (Stdlib.Strings.String.string_of_list_ascii_of_string s1),
    <- (Stdlib.Strings.String.string_of_list_ascii_of_string s2).
  by rewrite Heq.
Qed.

(** Two names whose suffixes read differently from the end differ. *)
Ltac by_suffix H :=
  apply (f_equal (λ s, reverse (chars s))) in H;
  cbv beta in H; rewrite !reversed_name in H;
  by simplify_eq/=.

Lemma layer_summary_tags_NoDup scopes :
  NoDup scopes → NoDup (scopes ≫= layer_summary_tags).
Proof.
  apply NoDup_bind.
  - intros s1 s2 tag _ _ Hin1 Hin2. unfold layer_summary_tags in *.
    apply elem_of_cons in Hin1 as [->|Hin1%list_elem_of_singleton];
      apply elem_of_cons in Hin2 as [Heq|Heq%list_elem_of_singleton];
      subst.
    + by apply (name_suffix_inj "_fraction_of_zero_values").
    + by_suffix Heq.
    + by_suffix Heq.
    + by apply (name_suffix_inj "_activation").
  - intros scope _. unfold layer_summary_tags.
    apply NoDup_cons. split; [|apply NoDup_singleton].
    intros Heq%list_elem_of_singleton. by_suffix Heq.
Qed.

Lemma hiddenlayer_scope_name_not_logits layer_id :
  hiddenlayer_scope_name layer_id ≠ "dnn/logits".
Proof. unfold hiddenlayer_scope_name. intros Heq. discriminate Heq. Qed.

Lemma hiddenlayer_scope_name_not_input layer_id :
  hiddenlayer_scope_name layer_id ≠ "dnn/input_from_feature_columns".
Proof. unfold hiddenlayer_scope_name. intros Heq. discriminate Heq. Qed.

Lemma layer_scope_names_NoDup n :
  NoDup ((hiddenlayer_scope_name <$> seq 0 n) ++ ["dnn/logits"]).
Proof.
  apply NoDup_app. split; [|split].
  - apply NoDup_fmap_2_strong; [|apply NoDup_seq].
    intros i j _ _. apply hiddenlayer_scope_name_inj.
  - intros name (layer_id & -> & _)%list_elem_of_fmap
      Hin%list_elem_of_singleton.
    by apply hiddenlayer_scope_name_not_logits in Hin.
  - apply NoDup_singleton.
Qed.

Lemma join_replicate_singleton {A} n (x : A) :
  mjoin (replicate n [x]) = replicate n x.
Proof. induction n as [|n IH]; [done|]. cbn. f_equal. exact IH. Qed.

Lemma join_replicate_nil {A} n : mjoin (replicate n (@nil A)) = [].
Proof. by induction n. Qed.

Section network.
Variables (features : Features) (labels : option FeatureTensor)
  (mode : ModeKeys) (params : Params.t) (config : option RunConfig).

#[local] Abbreviation ops :=
  (_dnn_model_fn features labels mode params config).1.
#[local] Abbreviation log :=
  (_dnn_model_fn features labels mode params config).2.

(** X1.  The fully connected layers of the network are, in order, one per
    entry of [hidden_units], with that many outputs and the configured
    activation function passed on as it is ([None] included), and then the
    logits layer, with as many outputs as the head requires and no
    activation; all put their variables in the collection [dnn]. *)
Theorem layers_follow_hidden_units :
  fully_connected_layers (head_lib.logits ops)
  = ((λ item : nat * Z,
        ("dnn/hiddenlayer_" +:+ fmt_d item.1, item.2,
         dict_get (Params.activation_fn params) None, ["dnn"]))
     <$> enumerate (Params.hidden_units params))
    ++ [("dnn/logits", head_lib.logits_dimension (Params.head params),
         None, ["dnn"])].
Proof.
  rewrite dnn_model_fn_ops. cbn [head_lib.logits].
  unfold logits_net. cbn [fully_connected_layers].
  unfold hidden_net, enumerate. by rewrite hidden_layers_layers.
Qed.

(** X2.  The network holds one dropout node per hidden layer, each with
    keep probability [1.0 - dropout], when the mode is [TRAIN] and a rate
    is configured (a rate of 0.0 included), and no dropout node at all
    otherwise; the logits layer never adds one. *)
Theorem one_dropout_per_hidden_layer :
  dropout_keep_probs (head_lib.logits ops)
  = match dict_get (Params.dropout params) None with
    | Some rate =>
        if decide (mode = model_fn.TRAIN)
        then replicate (length (Params.hidden_units params)) (1 - rate)%float
        else []
    | None => []
    end.
Proof.
  rewrite dnn_model_fn_ops. cbn [head_lib.logits].
  unfold logits_net. cbn [dropout_keep_probs].
  unfold hidden_net, enumerate. rewrite hidden_layers_keep_probs.
  unfold layer_keep_probs. cbn [dropout_keep_probs input_net app].
  destruct (dict_get (Params.dropout params) None) as [rate|];
    [destruct (decide (mode = model_fn.TRAIN))|];
    auto using join_replicate_singleton, join_replicate_nil.
Qed.

(** X3.  The network is a chain: the first fully connected layer consumes
    the input layer, and every later one, the logits layer included,
    consumes the output of the layer before it, dropout and all. *)
Theorem layers_feed_forward :
  fully_connected_inputs (head_lib.logits ops) ++ [head_lib.logits ops]
  = input_net features params config :: layer_outputs log.
Proof.
  rewrite dnn_model_fn_layer_outputs, dnn_model_fn_ops.
  cbn [head_lib.logits]. unfold logits_net at 1.
  cbn [fully_connected_inputs].
  unfold hidden_net, enumerate. rewrite hidden_layers_chain.
  cbn [fully_connected_inputs input_net app]. done.
Qed.

(** X4.  Every layer is built in the scope opened for it: the [scope]
    arguments of the input layer and of the fully connected layers are, in
    order, the variable scopes the model function enters. *)
Theorem layers_built_in_their_scopes :
  node_scopes (head_lib.logits ops) = entered_scopes log.
Proof.
  rewrite dnn_model_fn_ops, dnn_model_fn_log. cbn [head_lib.logits].
  unfold logits_net. cbn [node_scopes].
  unfold hidden_net, enumerate. rewrite hidden_layers_node_scopes.
  unfold entered_scopes. rewrite !omap_app. done.
Qed.

(** X5.  Variable scopes are never nested: the model function leaves each
    scope before it enters the next, leaves the last one before it
    returns, and writes every summary while no scope is open. *)
Theorem scopes_flat_and_summaries_outside :
  scope_walk None log = Some None.
Proof.
  rewrite dnn_model_fn_log.
  rewrite scope_walk_app. cbn. rewrite decide_True by done.
  cbn [mbind option_bind]. rewrite scope_walk_app.
  unfold hidden_net, enumerate. rewrite hidden_layers_scope_walk.
  cbn. by rewrite decide_True.
Qed.

(** X6.  No two of the variable scopes the model function enters have the
    same name, whatever the number of hidden layers. *)
Theorem scope_names_distinct :
  NoDup (scope_name <$> entered_scopes log).
Proof.
  rewrite dnn_model_fn_entered_scopes. rewrite fmap_cons, fmap_app.
  rewrite <- list_fmap_compose. cbn.
  apply NoDup_cons. split; [|apply layer_scope_names_NoDup].
  intros [Hin|Hin%list_elem_of_singleton]%elem_of_app; [|done].
  apply list_elem_of_fmap in Hin as (layer_id & Heq & _).
  by apply (hiddenlayer_scope_name_not_input layer_id).
Qed.

(** X7.  The model function writes two summaries per fully connected
    layer and no other, layer after layer: first a scalar tagged
    [<scope>_fraction_of_zero_values], measuring the zero fraction of the
    layer's output, then a histogram tagged [<scope>_activation] of that
    output, the output being the tensor the next layer consumes; and no
    two summaries share a tag. *)
Theorem two_summaries_per_layer :
  summary_events log
  = mjoin
      (zip_with
         (λ scope out,
            [SummaryScalar (scope +:+ "_fraction_of_zero_values")
               (ZeroFraction out);
             SummaryHistogram (scope +:+ "_activation") out])
         (fully_connected_scopes (head_lib.logits ops))
         (network_outputs (head_lib.logits ops)))
  ∧ summary_tags log
    = fully_connected_scopes (head_lib.logits ops)
      ≫= (λ scope,
            [scope +:+ "_fraction_of_zero_values"; scope +:+ "_activation"])
  ∧ scalar_summaries log = ZeroFraction <$> layer_outputs log
  ∧ NoDup (summary_tags log).
Proof.
  assert (summary_tags log
          = fully_connected_scopes (head_lib.logits ops)
            ≫= layer_summary_tags) as Htags.
  { rewrite dnn_model_fn_scopes, dnn_model_fn_log.
    unfold summary_tags. rewrite !omap_app.
    fold (summary_tags (hidden_net features mode params config).2).
    unfold hidden_net, enumerate. rewrite hidden_layers_summary_tags.
    by rewrite bind_app. }
  split; [|split; [done|split]].
  - unfold network_outputs.
    rewrite dnn_model_fn_scopes, dnn_model_fn_inputs. cbn [drop].
    rewrite dnn_model_fn_ops, dnn_model_fn_log. cbn [head_lib.logits].
    unfold summary_events. rewrite !omap_app.
    fold (summary_events (hidden_net features mode params config).2).
    unfold hidden_net, enumerate. rewrite hidden_layers_summary_events.
    rewrite zip_with_app, join_app; [done|].
    change (drop 0 ?l) with l.
    by rewrite length_fmap, length_seq, hidden_layers_outputs_length.
  - rewrite dnn_model_fn_layer_outputs, dnn_model_fn_log.
    unfold scalar_summaries. rewrite !omap_app.
    fold (scalar_summaries (hidden_net features mode params config).2).
    unfold hidden_net, enumerate. rewrite hidden_layers_scalar_summaries.
    by rewrite fmap_app.
  - rewrite Htags. apply layer_summary_tags_NoDup.
    rewrite dnn_model_fn_scopes. apply layer_scope_names_NoDup.
Qed.
End network.

(** ** The metrics the regressor forwards *)

Section dict_laws.
Context {K V : Type} `{EqDecision K}.
Implicit Types (d : list (K * V)) (k : K) (v : V).

Lemma dict_lookup_setitem k' k v d :
  dict_lookup k' (dict_setitem k v d)
  = if decide (k = k') then Some v else dict_lookup k' d.
Proof.
  induction d as [|[k0 v0] d IH]; cbn.
  - done.
  - destruct (decide (k0 = k)) as [->|Hne]; cbn.
    + by destruct (decide (k = k')).
    + rewrite IH. destruct (decide (k0 = k')) as [->|]; [|done].
      by rewrite decide_False.
Qed.

Lemma dict_lookup_app k d1 d2 :
  dict_lookup k (d1 ++ d2)
  = match dict_lookup k d1 with
    | Some v => Some v
    | None => dict_lookup k d2
    end.
Proof.
  induction d1 as [|[k0 v0] d1 IH]; [done|].
  cbn. by destruct (decide (k0 = k)).
Qed.

Lemma dict_lookup_Some k v d : dict_lookup k d = Some v → (k, v) ∈ d.
Proof.
  induction d as [|[k0 v0] d IH]; [done|].
  cbn. destruct (decide (k0 = k)) as [->|].
  - intros [= ->]. by left.
  - intros Hin. right. auto.
Qed.

Lemma dict_setitem_keys k' k v d :
  k' ∈ (dict_setitem k v d).*1 ↔ k' = k ∨ k' ∈ d.*1.
Proof.
  induction d as [|[k0 v0] d IH]; cbn.
  - rewrite list_elem_of_singleton, elem_of_nil. tauto.
  - destruct (decide (k0 = k)) as [->|Hne]; cbn.
    + rewrite !elem_of_cons. tauto.
    + rewrite !elem_of_cons, IH. tauto.
Qed.

Lemma dict_setitem_NoDup k v d : NoDup d.*1 → NoDup (dict_setitem k v d).*1.
Proof.
  induction d as [|[k0 v0] d IH]; cbn.
  - intros _. apply NoDup_singleton.
  - intros [Hnotin Hnodup]%NoDup_cons.
    destruct (decide (k0 = k)) as [->|Hne]; cbn.
    + by apply NoDup_cons.
    + apply NoDup_cons. split; [|auto].
      rewrite dict_setitem_keys. intros [?|?]; done.
Qed.

Lemma dict_setitem_Forall (P : K * V → Prop) k v d :
  P (k, v) → Forall P d → Forall P (dict_setitem k v d).
Proof.
  intros Hnew. induction 1 as [|[k0 v0] d Hhead Htail IH]; cbn.
  - by repeat constructor.
  - destruct (decide (k0 = k)); constructor; auto.
Qed.

Lemma dict_setitem_length k v d :
  (length (dict_setitem k v d) ≤ S (length d))%nat.
Proof.
  induction d as [|[k0 v0] d IH]; cbn; [lia|].
  destruct (decide (k0 = k)); cbn; lia.
Qed.
End dict_laws.

Lemma remapped_item_not_legacy item :
  legacy_entry (remapped_item item) = false.
Proof. by destruct item as [[name|name prediction] [spec|fn]]. Qed.

Lemma remapped_item_new_style item :
  legacy_entry item = false → remapped_item item = item.
Proof. by destruct item as [[name|name prediction] [spec|fn]]. Qed.

Lemma remap_metrics_invariant items custom_metrics :
  NoDup custom_metrics.*1 →
  Forall (λ item, legacy_entry item = false) custom_metrics →
  NoDup (foldl DNNRegressor.remap_metric custom_metrics items).*1
  ∧ Forall (λ item, legacy_entry item = false)
      (foldl DNNRegressor.remap_metric custom_metrics items).
Proof.
  revert custom_metrics.
  induction items as [|item items IH]; intros custom_metrics Hkeys Hnew;
    [done|].
  cbn [foldl]. rewrite remap_metric_setitem. apply IH.
  - by apply dict_setitem_NoDup.
  - apply dict_setitem_Forall; [|done].
    apply (remapped_item_not_legacy item).
Qed.

Lemma remap_metrics_lookup key items custom_metrics :
  dict_lookup key (foldl DNNRegressor.remap_metric custom_metrics items)
  = match dict_lookup key (reverse (remapped_item <$> items)) with
    | Some metric => Some metric
    | None => dict_lookup key custom_metrics
    end.
Proof.
  revert custom_metrics.
  induction items as [|item items IH]; intros custom_metrics; [done|].
  cbn [foldl]. rewrite IH, remap_metric_setitem, dict_lookup_setitem.
  rewrite fmap_cons, reverse_cons, dict_lookup_app.
  destruct (dict_lookup key (reverse (remapped_item <$> items)));
    [done|].
  cbn. by destruct (decide (remapped_key item = key)).
Qed.

Lemma remap_metrics_length items custom_metrics :
  (length (foldl DNNRegressor.remap_metric custom_metrics items)
   ≤ length custom_metrics + length items)%nat.
Proof.
  revert custom_metrics.
  induction items as [|item items IH]; intros custom_metrics;
    [cbn; lia|].
  cbn [foldl length]. rewrite remap_metric_setitem.
  etrans; [apply IH|].
  pose proof (dict_setitem_length (remapped_key item) item.2 custom_metrics).
  lia.
Qed.

Lemma custom_metrics_of_foldl metrics :
  DNNRegressor.custom_metrics_of metrics
  = foldl DNNRegressor.remap_metric [] (default [] metrics).
Proof. by destruct metrics as [[|item items]|]. Qed.

Section regressor_metrics.
Variables (self : DNNRegressor.t)
  (x y input_fn feed_fn batch_size steps name checkpoint_path : option PyObj).

#[local] Abbreviation forwarded metrics :=
  (default []
     (metrics_argument
        (DNNRegressor.evaluate self x y input_fn feed_fn batch_size steps
           metrics name checkpoint_path))).

Lemma forwarded_custom_metrics metrics :
  forwarded metrics
  = foldl DNNRegressor.remap_metric [] (default [] metrics).
Proof. apply custom_metrics_of_foldl. Qed.

Lemma new_style_remapped_unchanged items :
  NoDup items.*1 →
  Forall (λ item, legacy_entry item = false) items →
  foldl DNNRegressor.remap_metric [] items = items.
Proof.
  intros Hkeys Hnew.
  assert (remapped_item <$> items = items) as Hid.
  { clear Hkeys. induction Hnew as [|item d Hitem _ IH]; [done|].
    cbn. by rewrite IH, remapped_item_new_style. }
  rewrite remap_metrics_distinct.
  - by rewrite Hid.
  - cbn. replace (remapped_key <$> items)
      with ((remapped_item <$> items).*1)
      by (by rewrite <- list_fmap_compose).
    by rewrite Hid.
Qed.

(** X8.  Whatever [metrics] holds, the mapping [evaluate] forwards has
    pairwise distinct keys and no entry of the older API left in it: every
    entry has a tuple key or a [MetricSpec] value. *)
Theorem forwarded_metrics_new_style metrics :
  NoDup (forwarded metrics).*1
  ∧ Forall (λ item, legacy_entry item = false) (forwarded metrics).
Proof.
  rewrite forwarded_custom_metrics.
  apply remap_metrics_invariant; [apply NoDup_nil_2 | constructor].
Qed.

(** X9.  Under each key the forwarded mapping holds the metric of the last
    entry of [metrics], in iteration order, that is remapped to that key,
    and nothing under a key no entry is remapped to. *)
Theorem forwarded_metric_is_last_assigned metrics key :
  dict_lookup key (forwarded metrics)
  = dict_lookup key (reverse (remapped_item <$> default [] metrics)).
Proof.
  rewrite forwarded_custom_metrics, remap_metrics_lookup.
  by destruct (dict_lookup key _).
Qed.

(** X10.  Remapping is idempotent: evaluating with the mapping a first
    call forwarded forwards that mapping unchanged. *)
Theorem remapping_idempotent metrics :
  let first :=
    default []
      (metrics_argument
         (DNNRegressor.evaluate self x y input_fn feed_fn batch_size steps
            metrics name checkpoint_path)) in
  metrics_argument
    (DNNRegressor.evaluate self x y input_fn feed_fn batch_size steps
       (Some first) name checkpoint_path)
  = Some first.
Proof.
  intros first. subst first.
  cbn [DNNRegressor.evaluate metrics_argument]. f_equal.
  cbn [default]. rewrite (custom_metrics_of_foldl (Some _)). cbn [default].
  rewrite custom_metrics_of_foldl.
  destruct (remap_metrics_invariant (default [] metrics) [])
    as [Hkeys Hnew]; [apply NoDup_nil_2 | constructor |].
  by apply new_style_remapped_unchanged.
Qed.

(** X11.  [evaluate] invents no metric: every forwarded entry is the
    remapping of an entry of [metrics], and the forwarded mapping has no
    more entries than [metrics]. *)
Theorem forwarded_metrics_come_from_metrics metrics :
  (∀ key metric,
     (key, metric) ∈ forwarded metrics →
     ∃ original,
       (original, metric) ∈ default [] metrics
       ∧ remapped_key (original, metric) = key)
  ∧ (length (forwarded metrics) ≤ length (default [] metrics))%nat.
Proof.
  rewrite forwarded_custom_metrics. split.
  - intros key metric Hin.
    destruct (remap_metrics_invariant (default [] metrics) [])
      as [Hkeys _]; [apply NoDup_nil_2 | constructor |].
    apply (dict_lookup_elem_of _ _ _ Hkeys) in Hin.
    rewrite remap_metrics_lookup in Hin.
    destruct (dict_lookup key (reverse _)) as [metric'|] eqn:Hlast;
      [|done].
    injection Hin as ->.
    apply dict_lookup_Some, elem_of_reverse, list_elem_of_fmap in Hlast
      as ([original metric'] & [= -> ->] & Hlast).
    by exists original.
  - apply (remap_metrics_length _ []).
Qed.

(** X12.  A [metrics] dict of the newer API alone (distinct keys, every
    entry with a tuple key or a [MetricSpec] value) is forwarded as it
    is. *)
Theorem new_style_metrics_forwarded_unchanged items :
  NoDup items.*1 →
  Forall (λ item, legacy_entry item = false) items →
  forwarded (Some items) = items.
Proof.
  intros Hkeys Hnew. rewrite forwarded_custom_metrics. cbn [default].
  by apply new_style_remapped_unchanged.
Qed.
End regressor_metrics.

Lemma new_style_metrics_forwarded_unchanged_witness :
  default []
    (metrics_argument
       (DNNRegressor.evaluate example_regressor None None None None None
          None (Some new_style_metrics) None None))
  = new_style_metrics.
Proof.
  apply (new_style_metrics_forwarded_unchanged example_regressor None None
           None None None None None None new_style_metrics).
  - apply (bool_decide_unpack _). vm_compute. exact I.
  - repeat constructor.
Defined.

(** ** The variables the accessors read *)

Lemma weights_names self :
  variable_name <$> DNNClassifier.weights_ self
  = layers.weights_name <$> classifier_scopes self.
Proof.
  unfold DNNClassifier.weights_, classifier_scopes, enumerate.
  rewrite (fmap_enumerate_from
             (λ i, DNNClassifier.get_variable_value self
                     ("dnn/hiddenlayer_" +:+ fmt_d i +:+ "/weights"))).
  by rewrite !fmap_app, <- !list_fmap_compose.
Qed.

Lemma bias_names self :
  variable_name <$> DNNClassifier.bias_ self
  = (layers.biases_name <$> classifier_scopes self)
    ++ (if DNNClassifier._enable_centered_bias self
        then ["centered_bias_weight"] else []).
Proof.
  unfold DNNClassifier.bias_, classifier_scopes, enumerate.
  rewrite (fmap_enumerate_from
             (λ i, DNNClassifier.get_variable_value self
                     ("dnn/hiddenlayer_" +:+ fmt_d i +:+ "/biases"))).
  rewrite !fmap_app, <- !list_fmap_compose, <- (assoc_L (++)).
  do 2 f_equal.
  by destruct (DNNClassifier._enable_centered_bias self).
Qed.

(** X13.  [weights_] returns one array per hidden layer and one for the
    logits layer, [bias_] as many and one more when the centered bias is
    enabled; and no variable name is read twice across the two
    accessors. *)
Theorem accessors_read_distinct_variables self :
  let n := length (DNNClassifier._hidden_units self) in
  length (DNNClassifier.weights_ self) = S n
  ∧ length (DNNClassifier.bias_ self)
    = (S n + if DNNClassifier._enable_centered_bias self then 1 else 0)%nat
  ∧ NoDup
      (variable_name
       <$> DNNClassifier.weights_ self ++ DNNClassifier.bias_ self).
Proof.
  intros n. split; [|split].
  - rewrite <- (length_fmap variable_name), weights_names.
    unfold classifier_scopes.
    rewrite !length_fmap, length_app, length_fmap, length_seq. cbn. lia.
  - rewrite <- (length_fmap variable_name), bias_names.
    unfold classifier_scopes.
    rewrite length_app, !length_fmap, length_app, length_fmap, length_seq.
    destruct (DNNClassifier._enable_centered_bias self); cbn; lia.
  - rewrite fmap_app, weights_names, bias_names.
    assert (NoDup (classifier_scopes self)) as Hscopes
      by apply layer_scope_names_NoDup.
    apply NoDup_app. split; [|split].
    + apply NoDup_fmap_2_strong; [|done].
      intros s1 s2 _ _. apply (name_suffix_inj "/weights").
    + intros name (s1 & -> & _)%list_elem_of_fmap
        [(s2 & Heq & _)%list_elem_of_fmap|Hin]%elem_of_app.
      * unfold layers.weights_name, layers.biases_name in Heq.
        by_suffix Heq.
      * destruct (DNNClassifier._enable_centered_bias self);
          [|by apply elem_of_nil in Hin].
        apply list_elem_of_singleton in Hin.
        unfold layers.weights_name in Hin.
        apply (f_equal (λ s, reverse (chars s))) in Hin.
        cbv beta in Hin. rewrite reversed_name in Hin.
        by simplify_eq/=.
    + apply NoDup_app. split; [|split].
      * apply NoDup_fmap_2_strong; [|done].
        intros s1 s2 _ _. apply (name_suffix_inj "/biases").
      * intros name (s1 & -> & _)%list_elem_of_fmap Hin.
        destruct (DNNClassifier._enable_centered_bias self);
          [|by apply elem_of_nil in Hin].
        apply list_elem_of_singleton in Hin.
        unfold layers.biases_name in Hin.
        apply (f_equal (λ s, reverse (chars s))) in Hin.
        cbv beta in Hin. rewrite reversed_name in Hin.
        by simplify_eq/=.
      * destruct (DNNClassifier._enable_centered_bias self);
          [apply NoDup_singleton | apply NoDup_nil_2].
Qed.

(** ** What reaches [optimize_loss] and the graph *)

(** X14.  A setting of [optimizer] that is not callable never reaches
    [optimize_loss] as a false or a callable value: it arrives as it is
    when it is true as a truth value, and as ["Adagrad"] otherwise. *)
Theorem non_callable_optimizer_arrives_truthy
    features labels mode params config loss :
  callable (dict_get (Params.optimizer params) PyNone) = false →
  let configured := dict_get (Params.optimizer params) PyNone in
  let arrived :=
    optimizers.optimizer
      (head_lib.train_op_fn
         (_dnn_model_fn features labels mode params config).1 loss) in
  truthy arrived = true
  ∧ callable arrived = false
  ∧ arrived = (if truthy configured then configured else PyStr "Adagrad")
  ∧ (truthy configured = true → arrived = configured)
  ∧ (truthy configured = false → arrived = PyStr "Adagrad")
  ∧ (∀ name, configured = PyStr name → name ≠ "" → arrived = PyStr name)
  ∧ (∀ instance,
       configured = PyOptimizer instance → arrived = PyOptimizer instance).
Proof.
  intros Hcallable configured arrived. subst arrived.
  rewrite dnn_model_fn_ops. cbn [head_lib.train_op_fn].
  unfold _train_op_fn. cbn [optimizers.optimizer]. unfold py_or.
  fold configured in Hcallable |- *.
  assert (∀ name, name ≠ "" → truthy (PyStr name) = true) as Hname.
  { intros name Hne. cbn. by rewrite (proj2 (String.eqb_neq name "") Hne). }
  destruct (truthy configured) eqn:Htruthy.
  - rewrite (get_optimizer_not_callable _ Hcallable).
    repeat split; auto; try done.
  - cbn. repeat split; auto; try done.
    + intros name Heq Hne. rewrite Heq, (Hname name Hne) in Htruthy. done.
    + intros instance Heq. by rewrite Heq in Htruthy.
Qed.

Lemma non_callable_optimizer_arrives_truthy_witness :
  optimizers.optimizer (example_train_op (Some (PyInt 0))) = PyStr "Adagrad"
  ∧ optimizers.optimizer (example_train_op (Some (PyStr "SGD")))
    = PyStr "SGD"
  ∧ optimizers.optimizer
      (example_train_op (Some (PyOptimizer example_optimizer)))
    = PyOptimizer example_optimizer.
Proof.
  pose proof (λ configured,
                non_callable_optimizer_arrives_truthy example_features None
                  model_fn.TRAIN
                  (Params.set_optimizer (Some configured) example_params)
                  None example_loss) as Harrives.
  split; [|split].
  - destruct (Harrives (PyInt 0) eq_refl) as (_ & _ & _ & _ & Hfalse & _).
    apply Hfalse. reflexivity.
  - destruct (Harrives (PyStr "SGD") eq_refl)
      as (_ & _ & _ & _ & _ & Hname & _).
    apply (Hname "SGD"); [reflexivity | discriminate].
  - destruct (Harrives (PyOptimizer example_optimizer) eq_refl)
      as (_ & _ & _ & _ & _ & _ & Hinstance).
    apply (Hinstance example_optimizer). reflexivity.
Defined.

(** X15.  A regressor puts every hyperparameter key into [params], so no
    default of [params.get] applies when its model function runs: the
    hidden layers have the widths of [hidden_units] and the activation
    function given (none when [None] is given), the dropout rate is the
    one given, and the training op gets the clip norm and the embedding
    multipliers given, [None] arriving as [None] and not as the empty
    dict. *)
Theorem regressor_hyperparameters_reach_the_model
    required_logits_dimension hidden_units feature_columns model_dir
    weight_column_name optimizer activation_fn dropout gradient_clip_norm
    enable_centered_bias config feature_engineering_fn label_dimension
    embedding_lr_multipliers features labels mode run_config loss :
  let self :=
    DNNRegressor.__init__ required_logits_dimension hidden_units
      feature_columns model_dir weight_column_name optimizer activation_fn
      dropout gradient_clip_norm enable_centered_bias config
      feature_engineering_fn label_dimension embedding_lr_multipliers in
  let est := DNNRegressor._estimator self in
  let ops :=
    (estimator.model_fn est features labels mode (estimator.params est)
       run_config).1 in
  let op := head_lib.train_op_fn ops loss in
  fully_connected_layers (head_lib.logits ops)
  = ((λ item : nat * Z,
        ("dnn/hiddenlayer_" +:+ fmt_d item.1, item.2, activation_fn,
         ["dnn"]))
     <$> enumerate hidden_units)
    ++ [("dnn/logits", head_lib.logits_dimension (head_lib.head ops),
         None, ["dnn"])]
  ∧ dropout_keep_probs (head_lib.logits ops)
    = match dropout with
      | Some rate =>
          if decide (mode = model_fn.TRAIN)
          then replicate (length hidden_units) (1 - rate)%float
          else []
      | None => []
      end
  ∧ optimizers.optimizer op
    = _get_optimizer (py_or optimizer (PyStr "Adagrad"))
  ∧ optimizers.clip_gradients op = gradient_clip_norm
  ∧ gm_embedding_lr_multipliers (optimizers.gradient_multipliers op)
    = embedding_lr_multipliers.
Proof.
  cbn zeta.
  cbn [DNNRegressor.__init__ DNNRegressor._estimator estimator.model_fn
       estimator.params].
  rewrite dnn_model_fn_ops.
  cbn [head_lib.logits head_lib.head head_lib.train_op_fn Params.head
       Params.optimizer Params.gradient_clip_norm
       Params.embedding_lr_multipliers dict_get].
  split; [|split; [|by repeat split]].
  - unfold logits_net. cbn [fully_connected_layers].
    unfold hidden_net, enumerate. by rewrite hidden_layers_layers.
  - unfold logits_net. cbn [dropout_keep_probs].
    unfold hidden_net, enumerate. rewrite hidden_layers_keep_probs.
    unfold layer_keep_probs.
    cbn [dropout_keep_probs input_net app Params.dropout Params.hidden_units
         dict_get].
    destruct dropout as [rate|];
      [destruct (decide (mode = model_fn.TRAIN))|];
      auto using join_replicate_singleton, join_replicate_nil.
Qed.

(** ** Export *)

Lemma hidden_layers_feature_columns
    mode activation_fn dropout partitioner hidden_units start net :
  input_feature_columns
    (for_each (enumerate_from start hidden_units) net
       (hidden_layer mode activation_fn dropout partitioner)).1
  = input_feature_columns net.
Proof.
  revert start net.
  induction hidden_units as [|u us IH]; intros start net; [done|].
  cbn [enumerate_from]. rewrite for_each_cons. cbn [fst]. rewrite IH.
  cbn. destruct dropout as [rate|];
    [destruct (decide (mode = model_fn.TRAIN))|]; done.
Qed.

Lemma dnn_model_fn_feature_columns features labels mode params config :
  input_feature_columns
    (head_lib.logits (_dnn_model_fn features labels mode params config).1)
  = Params.feature_columns params.
Proof.
  rewrite dnn_model_fn_ops. cbn [head_lib.logits].
  unfold logits_net. cbn [input_feature_columns].
  unfold hidden_net, enumerate. by rewrite hidden_layers_feature_columns.
Qed.

(** X16.  For a regressor, [export] hands the
    estimator the [input_fn] and the [signature_fn] given when they are
    true as truth values, and otherwise (for [None] and for a given object
    that is false) its defaults: the input function that parses the
    examples with exactly the feature columns the input layer of the
    regressor's network is built from, and the regression signature.  The
    prediction exported is the one [predict] asks the same estimator for
    and returns. *)
Theorem regressor_export_matches_model
    required_logits_dimension hidden_units feature_columns model_dir
    weight_column_name optimizer activation_fn dropout
    gradient_clip_norm enable_centered_bias config feature_engineering_fn
    label_dimension embedding_lr_multipliers features labels mode
    run_config export_dir input_feature_key use_deprecated_input_fn
    default_batch_size exports_to_keep x input_fn batch_size as_iterable :
  let self :=
    DNNRegressor.__init__ required_logits_dimension hidden_units
      feature_columns model_dir weight_column_name optimizer activation_fn
      dropout gradient_clip_norm enable_centered_bias config
      feature_engineering_fn label_dimension embedding_lr_multipliers in
  let est := DNNRegressor._estimator self in
  let network :=
    head_lib.logits
      (estimator.model_fn est features labels mode (estimator.params est)
         run_config).1 in
  let export given_input_fn given_signature_fn :=
    DNNRegressor_export self export_dir given_input_fn input_feature_key
      use_deprecated_input_fn given_signature_fn default_batch_size
      exports_to_keep in
  let predicted :=
    predictions_source
      (DNNRegressor.predict self x input_fn batch_size as_iterable) in
  (∀ given_input_fn given_signature_fn,
     export_input_fn (export given_input_fn given_signature_fn)
     = (if arg_truthy given_input_fn then GivenInputFn given_input_fn
        else default_input_fn (input_feature_columns network))
     ∧ export_signature_fn (export given_input_fn given_signature_fn)
       = (if arg_truthy given_signature_fn
          then GivenSignatureFn given_signature_fn
          else regression_signature_fn)
     ∧ export_self (export given_input_fn given_signature_fn) = est
     ∧ export_prediction_key (export given_input_fn given_signature_fn)
       = prediction_key.SCORES)
  ∧ (∀ given_signature_fn,
       export_input_fn (export ArgNone given_signature_fn)
       = default_input_fn (input_feature_columns network))
  ∧ (∀ fn given_signature_fn,
       export_input_fn (export (ArgObject fn true) given_signature_fn)
       = GivenInputFn (ArgObject fn true))
  ∧ (∀ fn given_signature_fn,
       export_input_fn (export (ArgObject fn false) given_signature_fn)
       = default_input_fn (input_feature_columns network))
  ∧ requested_outputs predicted.1
    = [export_prediction_key (export ArgNone ArgNone)]
  ∧ predicted.2 = export_prediction_key (export ArgNone ArgNone)
  ∧ predicted.1
    = estimator.predict (export_self (export ArgNone ArgNone)) x input_fn
        batch_size [export_prediction_key (export ArgNone ArgNone)]
        as_iterable.
Proof.
  cbn zeta.
  cbn [DNNRegressor.__init__ DNNRegressor._estimator estimator.model_fn
       estimator.params].
  rewrite dnn_model_fn_feature_columns.
  split; [by intros [|fn [|]] [|sig [|]]|].
  repeat (split; [done|]).
  by destruct as_iterable.
Qed.

(** X17.  For a classifier that was constructed, [export] hands the
    estimator the [input_fn] and the [signature_fn] given when they are
    true as truth values, and otherwise (for [None] and for a given object
    that is false) its defaults: the input function that parses the
    examples with exactly the feature columns the input layer of the
    classifier's network is built from, and the classification signature.  The
    prediction exported is the one [predict_proba] asks the same estimator for
    and returns. *)
Theorem classifier_export_matches_model
    required_logits_dimension hidden_units feature_columns model_dir
    n_classes weight_column_name optimizer activation_fn dropout
    gradient_clip_norm enable_centered_bias config feature_engineering_fn
    embedding_lr_multipliers self features labels mode
    run_config export_dir input_feature_key use_deprecated_input_fn
    default_batch_size exports_to_keep x input_fn batch_size as_iterable :
  DNNClassifier.__init__ required_logits_dimension hidden_units
    feature_columns model_dir n_classes weight_column_name optimizer
    activation_fn dropout gradient_clip_norm enable_centered_bias config
    feature_engineering_fn embedding_lr_multipliers
  = Return self →
  let est := DNNClassifier._estimator self in
  let network :=
    head_lib.logits
      (estimator.model_fn est features labels mode (estimator.params est)
         run_config).1 in
  let export given_input_fn given_signature_fn :=
    DNNClassifier_export self export_dir given_input_fn input_feature_key
      use_deprecated_input_fn given_signature_fn default_batch_size
      exports_to_keep in
  let predicted :=
    predictions_source
      (DNNClassifier.predict_proba self x input_fn batch_size as_iterable) in
  (∀ given_input_fn given_signature_fn,
     export_input_fn (export given_input_fn given_signature_fn)
     = (if arg_truthy given_input_fn then GivenInputFn given_input_fn
        else default_input_fn (input_feature_columns network))
     ∧ export_signature_fn (export given_input_fn given_signature_fn)
       = (if arg_truthy given_signature_fn
          then GivenSignatureFn given_signature_fn
          else classification_signature_fn_with_prob)
     ∧ export_self (export given_input_fn given_signature_fn) = est
     ∧ export_prediction_key (export given_input_fn given_signature_fn)
       = prediction_key.PROBABILITIES)
  ∧ (∀ given_signature_fn,
       export_input_fn (export ArgNone given_signature_fn)
       = default_input_fn (input_feature_columns network))
  ∧ (∀ fn given_signature_fn,
       export_input_fn (export (ArgObject fn true) given_signature_fn)
       = GivenInputFn (ArgObject fn true))
  ∧ (∀ fn given_signature_fn,
       export_input_fn (export (ArgObject fn false) given_signature_fn)
       = default_input_fn (input_feature_columns network))
  ∧ requested_outputs predicted.1
    = [export_prediction_key (export ArgNone ArgNone)]
  ∧ predicted.2 = export_prediction_key (export ArgNone ArgNone)
  ∧ predicted.1
    = estimator.predict (export_self (export ArgNone ArgNone)) x input_fn
        batch_size [export_prediction_key (export ArgNone ArgNone)]
        as_iterable.
Proof.
  unfold DNNClassifier.__init__, head_lib._multi_class_head.
  destruct (decide (n_classes < 2)) as [|Hge]; [done|].
  cbn [exc_bind]. intros [= <-].
  cbn [DNNClassifier._estimator estimator.model_fn estimator.params].
  rewrite dnn_model_fn_feature_columns.
  split; [by intros [|fn [|]] [|sig [|]]|].
  repeat (split; [done|]).
  by destruct as_iterable.
Qed.

Lemma classifier_export_matches_model_witness :
  ∃ self,
    example_classifier 3 = Return self
    ∧ export_input_fn
        (DNNClassifier_export self (Obj "/tmp/export") ArgNone None true
           ArgNone 1 None)
      = default_input_fn [ {| column_name := "age" |} ]
    ∧ export_input_fn
        (DNNClassifier_export self (Obj "/tmp/export")
           (ArgObject (Obj "serving_input_fn") true) None true ArgNone 1
           None)
      = GivenInputFn (ArgObject (Obj "serving_input_fn") true).
Proof.
  eexists. split; [reflexivity|].
  destruct (classifier_export_matches_model example_logits_dimension [4; 2]
              [ {| column_name := "age" |} ] None 3 None PyNone
              (Some {| activation_name := "relu" |}) None None true None
              None None _ example_features None model_fn.PREDICT None
              (Obj "/tmp/export") None true 1 None None None None true
              eq_refl)
    as (_ & Hdefault & Hgiven & _).
  split.
  - exact (Hdefault ArgNone).
  - exact (Hgiven (Obj "serving_input_fn") ArgNone).
Defined.
